(** * careerConnector: the profile router (routes/api/profile.js)

    A shallow embedding of the Express route handlers of the profile
    service and of the parts of their environment they rely on (JavaScript
    strings, the Mongoose collections, express-validator, the GitHub
    request), followed by the properties of the handlers.

    The sources hold the router three times.  The complete one (all ten
    routes; [src/unnamed/part_000]) is embedded at top level.
    [src/routes/api/profile.js] holds two shorter ones, one after the
    other: the first has the routes up to [PUT /experience], the second
    those up to [GET /user/:user_id].  Their [POST /], [GET /me], [GET /]
    and [PUT /experience] are the complete router's; the handlers that
    differ are embedded in [Module RoutesApiProfile]. *)

From stdpp Require Import strings list gmap.
From Stdlib Require Import ZArith NArith Lia.
From Stdlib Require Ascii String.

Local Open Scope N_scope.

(** ** JavaScript strings

    A JavaScript string is a sequence of UTF-16 code units. *)

Definition jsstring : Type := list N.

(** Literals: the code units of an ASCII text. *)
Definition js (s : string) : jsstring :=
  Ascii.N_of_ascii <$> String.list_ascii_of_string s.

(** [if (x)] on a value that is [undefined] or a string: only a non-empty
    string is truthy. *)
Definition truthy (v : option jsstring) : bool :=
  match v with
  | Some (_ :: _) => true
  | _ => false
  end.

(** [WhiteSpace] and [LineTerminator] of ECMAScript, the code units that
    [String.prototype.trim] strips. *)
Definition isWhiteSpace (c : N) : bool :=
  (c =? 9) || (c =? 10) || (c =? 11) || (c =? 12) || (c =? 13) ||
  (c =? 32) || (c =? 160) || (c =? 5760) ||
  ((8192 <=? c) && (c <=? 8202)) ||
  (c =? 8232) || (c =? 8233) || (c =? 8239) || (c =? 8287) ||
  (c =? 12288) || (c =? 65279).

Fixpoint trimStart (s : jsstring) : jsstring :=
  match s with
  | [] => []
  | c :: s' => if isWhiteSpace c then trimStart s' else s
  end.

Definition trimEnd (s : jsstring) : jsstring :=
  reverse (trimStart (reverse s)).

(** [s.trim()] *)
Definition trim (s : jsstring) : jsstring := trimEnd (trimStart s).

(** [s.split(sep)] for a separator of one code unit: the segments between
    the occurrences of [sep]; the empty string gives one empty segment. *)
Fixpoint split (sep : N) (s : jsstring) : list jsstring :=
  match s with
  | [] => [[]]
  | c :: s' =>
      if c =? sep then [] :: split sep s'
      else match split sep s' with
           | [] => [[c]]
           | seg :: rest => (c :: seg) :: rest
           end
  end.

Definition comma : N := 44.

(** [arr.join(sep)], used to state that [split] loses nothing. *)
Fixpoint join (sep : N) (l : list jsstring) : jsstring :=
  match l with
  | [] => []
  | [seg] => seg
  | seg :: rest => seg ++ sep :: join sep rest
  end.

(** [arr.indexOf(x)]: the first position of [x], -1 when it does not
    occur. *)
Fixpoint indexOf `{EqDecision A} (x : A) (l : list A) : Z :=
  match l with
  | [] => (-1)%Z
  | y :: l' =>
      if decide (y = x) then 0%Z
      else let i := indexOf x l' in
           if (i <? 0)%Z then (-1)%Z else (i + 1)%Z
  end.

(** [arr.splice(start, deleteCount)] (ECMAScript 22.1.3.26), the array
    left behind: a negative [start] counts from the end, and both numbers
    are clamped to the array. *)
Definition splice {A} (start deleteCount : Z) (l : list A) : list A :=
  let len := Z.of_nat (length l) in
  let actualStart :=
    if (start <? 0)%Z then Z.max (len + start) 0 else Z.min start len in
  let actualDeleteCount :=
    Z.min (Z.max deleteCount 0) (len - actualStart) in
  take (Z.to_nat actualStart) l ++
  drop (Z.to_nat (actualStart + actualDeleteCount)) l.

(** [arr.unshift(x)] *)
Definition unshift {A} (x : A) (l : list A) : list A := x :: l.

(** ** Object ids

    A MongoDB ObjectId is a 96-bit number.  The driver accepts as an id a
    string of 24 hexadecimal digits or a string of 12 characters (taken as
    12 bytes), and refuses every other string; Mongoose reports the refusal
    as a [CastError] whose [kind] is ['ObjectId']. *)

Abbreviation ObjectId := N (only parsing).

Inductive Exn : Type :=
  | CastError (kind : string)     (* Mongoose: value cannot be cast *)
  | TypeError                     (* property read on null *)
  | ReferenceError                (* an identifier that is not declared *)
  | URIError                      (* encodeURI on a lone surrogate *)
  | ConfigError                   (* config.get on an undefined key *)
  | RequestError (status : option nat).
      (* axios: no response (None) or a non-2xx response (Some status) *)

(** [err.kind]: only a [CastError] has one. *)
Definition err_kind (e : Exn) : option string :=
  match e with
  | CastError k => Some k
  | _ => None
  end.

Definition hexDigit (c : N) : option N :=
  if (48 <=? c) && (c <=? 57) then Some (c - 48)
  else if (97 <=? c) && (c <=? 102) then Some (c - 87)
  else if (65 <=? c) && (c <=? 70) then Some (c - 55)
  else None.

Fixpoint hexValue (acc : N) (s : jsstring) : option N :=
  match s with
  | [] => Some acc
  | c :: s' =>
      match hexDigit c with
      | Some d => hexValue (16 * acc + d) s'
      | None => None
      end
  end.

Definition bytesValue (s : jsstring) : N :=
  foldl (λ acc c, 256 * acc + N.land c 255) 0 s.

Definition castObjectId (s : jsstring) : Exn + ObjectId :=
  if (length s =? 12)%nat then inr (bytesValue s)
  else if (length s =? 24)%nat then
    match hexValue 0 s with
    | Some v => inr v
    | None => inl (CastError "ObjectId")
    end
  else inl (CastError "ObjectId").

(** ** Documents *)

Module Social.
(** The [social] object of a profile: each key is present or not. *)
Record t : Type := mk {
  youtube : option jsstring;
  twitter : option jsstring;
  linkedin : option jsstring;
  facebook : option jsstring;
  instagram : option jsstring
}.
End Social.

Module Experience.
(** An entry of [experiences].  [id] is the identifier Mongoose gives the
    subdocument when it enters the array; the other fields are the
    request's, [undefined] when the request left them out. *)
Record t : Type := mk {
  id : jsstring;
  title : option jsstring;
  company : option jsstring;
  location : option jsstring;
  from : option jsstring;
  to : option jsstring;
  current : option bool;
  description : option jsstring
}.
End Experience.

Module Education.
Record t : Type := mk {
  id : jsstring;
  school : option jsstring;
  degree : option jsstring;
  fieldOfStudy : option jsstring;
  from : option jsstring;
  to : option jsstring;
  current : option bool;
  description : option jsstring
}.
End Education.

Module Profile.
(** Modelled from the spec: the [Profile] schema ([models/Profile.js] is
    not among the sources).  The fields are those of the data model:
    the owning user, six optional strings, the skills list, the social
    object and the two embedded sequences, which a new document starts
    empty. *)
Record t : Type := mk {
  user : ObjectId;
  company : option jsstring;
  website : option jsstring;
  location : option jsstring;
  bio : option jsstring;
  status : option jsstring;
  githubusername : option jsstring;
  skills : list jsstring;
  social : Social.t;
  experiences : list Experience.t;
  education : list Education.t
}.

Definition set_experiences (l : list Experience.t) (p : t) : t :=
  mk (user p) (company p) (website p) (location p) (bio p) (status p)
     (githubusername p) (skills p) (social p) l (education p).

Definition set_education (l : list Education.t) (p : t) : t :=
  mk (user p) (company p) (website p) (location p) (bio p) (status p)
     (githubusername p) (skills p) (social p) (experiences p) l.
End Profile.

Module User.
(** Modelled from the spec: the [User] record; the handlers read only
    [name] and [avatar] (through [populate]). *)
Record t : Type := mk { name : jsstring; avatar : jsstring }.
End User.

Module Post.
(** Modelled from the spec: a [Post]; the handlers use only the owning
    user. *)
Record t : Type := mk { user : ObjectId; text : jsstring }.
End Post.

(** ** The document store

    [profiles] and [posts] are collections in their natural order: nothing
    in the database keeps two profiles from naming the same user, so the
    collection is a list and [findOne] takes its first match.  [users] is
    keyed by [_id], which the database keeps unique. *)

Record Store : Type := mkStore {
  profiles : list Profile.t;
  users : gmap ObjectId User.t;
  posts : list Post.t
}.

Definition set_profiles (l : list Profile.t) (s : Store) : Store :=
  mkStore l (users s) (posts s).
Definition set_users (m : gmap ObjectId User.t) (s : Store) : Store :=
  mkStore (profiles s) m (posts s).
Definition set_posts (l : list Post.t) (s : Store) : Store :=
  mkStore (profiles s) (users s) l.

(** ** Handlers as store transformers that may throw

    A step of a handler reads and writes the store and either returns or
    throws.  What was written before a throw stays written: the handlers
    use no transaction. *)

Definition M (A : Type) : Type := Store → Store * (Exn + A).

#[global] Instance M_ret : MRet M := λ A x s, (s, inr x).
#[global] Instance M_bind : MBind M := λ A B f m s,
  match m s with
  | (s', inr x) => f x s'
  | (s', inl e) => (s', inl e)
  end.

Definition throw {A} (e : Exn) : M A := λ s, (s, inl e).
Definition gets {A} (f : Store → A) : M A := λ s, (s, inr (f s)).
Definition modify (f : Store → Store) : M unit := λ s, (f s, inr tt).

(** [x.prop] where [x] may be [null]: reading a property of [null]
    throws a [TypeError]. *)
Definition deref {A} (x : option A) : M A :=
  match x with
  | Some a => mret a
  | None => throw TypeError
  end.

(** *** Mongoose queries *)

(** A loaded or new document: [origin] is where it sits in the collection,
    [None] for a document made by [new Profile(...)] and not yet saved. *)
Record Document : Type := mkDocument {
  origin : option nat;
  doc : Profile.t
}.

Definition by_user (u : ObjectId) (p : Profile.t) : bool :=
  bool_decide (Profile.user p = u).

Fixpoint find_index {A} (f : A → bool) (l : list A) : option nat :=
  match l with
  | [] => None
  | x :: l' => if f x then Some 0%nat else S <$> find_index f l'
  end.

(** [Profile.findOne({ user: u })]: the first profile of [u], or [null]. *)
Definition Profile_findOne (u : ObjectId) : M (option Document) :=
  gets (λ s,
    i ← find_index (by_user u) (profiles s);
    p ← profiles s !! i;
    Some (mkDocument (Some i) p)).

(** [Profile.find({ user: u })]: all profiles of [u]. *)
Definition Profile_find (u : ObjectId) : M (list Profile.t) :=
  gets (λ s, filter (λ p, Profile.user p = u) (profiles s)).

(** [Profile.find()] *)
Definition Profile_find_all : M (list Profile.t) := gets profiles.

(** [d.save()]: a new document joins the collection, a loaded one is
    written back where it came from. *)
Definition Profile_save (d : Document) : M unit :=
  modify (λ s,
    match origin d with
    | None => set_profiles (profiles s ++ [doc d]) s
    | Some i => set_profiles (<[i := doc d]> (profiles s)) s
    end).

(** [Profile.findOneAndRemove({ user: u })]: deletes the first profile of
    [u], if any. *)
Definition Profile_findOneAndRemove (u : ObjectId) : M unit :=
  modify (λ s,
    match find_index (by_user u) (profiles s) with
    | Some i => set_profiles (delete i (profiles s)) s
    | None => s
    end).

(** [User.findOneAndRemove({ _id: u })] *)
Definition User_findOneAndRemove (u : ObjectId) : M unit :=
  modify (λ s, set_users (delete u (users s)) s).

(** [Post.deleteMany({ user: u })] *)
Definition Post_deleteMany (u : ObjectId) : M unit :=
  modify (λ s, set_posts (filter (λ p, Post.user p ≠ u) (posts s)) s).

(** [Profile.findOneAndUpdate({ user: u }, { $set: fields }, { new: true })]
    is given with the type of [fields], below. *)

(** ** Requests and responses *)

Module ProfileBody.
(** [req.body] of [POST /]: each field is absent or a string. *)
Record t : Type := mk {
  company : option jsstring;
  website : option jsstring;
  location : option jsstring;
  bio : option jsstring;
  status : option jsstring;
  githubusername : option jsstring;
  skills : option jsstring;
  youtube : option jsstring;
  facebook : option jsstring;
  twitter : option jsstring;
  instagram : option jsstring;
  linkedin : option jsstring
}.
End ProfileBody.

Module ExperienceBody.
(** [req.body] of [PUT /experience] *)
Record t : Type := mk {
  title : option jsstring;
  company : option jsstring;
  location : option jsstring;
  from : option jsstring;
  to : option jsstring;
  current : option bool;
  description : option jsstring
}.
End ExperienceBody.

Module EducationBody.
(** [req.body] of [PUT /education] *)
Record t : Type := mk {
  school : option jsstring;
  degree : option jsstring;
  fieldOfStudy : option jsstring;
  from : option jsstring;
  to : option jsstring;
  current : option bool;
  description : option jsstring
}.
End EducationBody.

(** An entry of [errors.array()] of express-validator. *)
Record FieldError : Type := mkFieldError {
  location : string;
  param : string;
  msg : string;
  value : option jsstring
}.

(** A profile after [populate('user', ['name', 'avatar'])]: the user
    reference is replaced by the user's record, [null] when there is none. *)
Definition Populated : Type := Profile.t * option User.t.

Inductive Body : Type :=
  | JProfile (p : Profile.t)
  | JNull
  | JPopulated (p : Populated)
  | JPopulatedList (l : list Populated)
  | JMsg (msg : string)                   (* { msg } *)
  | JErrors (errors : list FieldError)    (* { errors: [...] } *)
  | JData (data : jsstring)               (* the GitHub response body *)
  | Text (t : string).                    (* res.send(text) *)

Record Response : Type := mkResponse { status : nat; body : Body }.

(** [res.json(b)], [res.status(n).json(b)], [res.status(n).send(t)] *)
Definition res_json (b : Body) : Response := mkResponse 200 b.
Definition res_status_json (n : nat) (b : Body) : Response := mkResponse n b.
Definition res_status_send (n : nat) (t : string) : Response :=
  mkResponse n (Text t).

(** [try { body } catch (err) { handler }], at the top of a handler: the
    response is the body's, or the catch clause's when the body throws. *)
Definition try_catch (m : M Response) (h : Exn → Response)
    : Store → Store * Response :=
  λ s, match m s with
       | (s', inr r) => (s', r)
       | (s', inl err) => (s', h err)
       end.

(** *** The request

    Besides its body, a request has cookies, headers, route parameters and
    a query string, each an object from names to strings.  The handlers
    read their fields from the body; the validator reads all five. *)
Record Request (B : Type) : Type := mkRequest {
  req_body : B;
  req_cookies : gmap string jsstring;
  req_headers : gmap string jsstring;
  req_params : gmap string jsstring;
  req_query : gmap string jsstring
}.
Arguments mkRequest {B} _ _ _ _ _.
Arguments req_body {B} _.
Arguments req_cookies {B} _.
Arguments req_headers {B} _.
Arguments req_params {B} _.
Arguments req_query {B} _.

(** A request that carries nothing outside its body. *)
Definition body_only {B} (b : B) : Request B := mkRequest b ∅ ∅ ∅ ∅.

(** *** express-validator

    [check(field, message)] looks the field up in the body, the cookies,
    the headers (under the lower-case name), the route parameters and the
    query string, in this order.  The locations where the field is defined
    are validated, all of them; when it is defined nowhere, the first
    location alone is, for the error report.  [.not().isEmpty()] records an
    error for a validated location when the value there, turned into a
    string, is empty; an undefined value turns into the empty string. *)

Definition isEmpty (v : option jsstring) : bool :=
  match v with
  | None | Some [] => true
  | Some (_ :: _) => false
  end.

Definition lower (c : Ascii.ascii) : Ascii.ascii :=
  let n := Ascii.nat_of_ascii c in
  if (65 <=? n)%nat && (n <=? 90)%nat then Ascii.ascii_of_nat (n + 32) else c.

(** [name.toLowerCase()] on a field name *)
Fixpoint toLowerCase (name : string) : string :=
  match name with
  | EmptyString => EmptyString
  | String c name' => String (lower c) (toLowerCase name')
  end.

(** The field in each location: the location's name and the value there,
    [None] for [undefined]. *)
Definition field_locations {B} (get : B → option jsstring) (field : string)
    (req : Request B) : list (string * option jsstring) :=
  [("body", get (req_body req));
   ("cookies", req_cookies req !! field);
   ("headers", req_headers req !! toLowerCase field);
   ("params", req_params req !! field);
   ("query", req_query req !! field)].

(** The instances that are validated: those with a value, or the first. *)
Definition select_instances (instances : list (string * option jsstring))
    : list (string * option jsstring) :=
  let withValue := filter (λ i, is_Some i.2) instances in
  if bool_decide (withValue = []) then take 1 instances else withValue.

(** The errors of [.not().isEmpty()] over validated instances. *)
Definition not_isEmpty_errors (field message : string)
    (instances : list (string * option jsstring)) : list FieldError :=
  instances ≫= λ i, if isEmpty i.2
                    then [mkFieldError i.1 field message i.2] else [].

(** [check(field, message).not().isEmpty()] run on a request; [get] reads
    the field off the body. *)
Definition check_not_isEmpty {B} (get : B → option jsstring)
    (field message : string) (req : Request B) : list FieldError :=
  not_isEmpty_errors field message
    (select_instances (field_locations get field req)).

(** *** [populate] *)

Definition populate (p : Profile.t) : M Populated :=
  gets (λ s, (p, users s !! Profile.user p)).

Definition populate_opt (d : option Document) : M (option Populated) :=
  match d with
  | None => mret None
  | Some d => p ← populate (doc d); mret (Some p)
  end.

(** ** [POST /]: create or update the caller's profile *)

Module ProfileFields.
(** The object [profilefields]: [user] and [social] are always set, every
    other key only when the handler assigned it. *)
Record t : Type := mk {
  user : ObjectId;
  company : option jsstring;
  website : option jsstring;
  location : option jsstring;
  bio : option jsstring;
  status : option jsstring;
  githubusername : option jsstring;
  skills : option (list jsstring);
  social : Social.t
}.
End ProfileFields.

(** [if (x) obj.key = x]: the key's value afterwards, [None] for a key
    left unassigned. *)
Definition assign_if (x : option jsstring) : option jsstring :=
  if truthy x then x else None.

(** The social object the handler builds. *)
Definition build_social (b : ProfileBody.t) : Social.t :=
  Social.mk (assign_if (ProfileBody.youtube b))
            (assign_if (ProfileBody.twitter b))
            (assign_if (ProfileBody.linkedin b))
            (assign_if (ProfileBody.facebook b))
            (assign_if (ProfileBody.instagram b)).

(** The profile object the handler builds. *)
Definition build_profilefields (u : ObjectId) (b : ProfileBody.t)
    : ProfileFields.t :=
  ProfileFields.mk u
    (assign_if (ProfileBody.company b))
    (assign_if (ProfileBody.website b))
    (assign_if (ProfileBody.location b))
    (assign_if (ProfileBody.bio b))
    (assign_if (ProfileBody.status b))
    (assign_if (ProfileBody.githubusername b))
    (if truthy (ProfileBody.skills b)
     then (λ skills, (λ skill, trim skill) <$> split comma skills)
            <$> ProfileBody.skills b
     else None)
    (build_social b).

(** [new Profile(fields)] *)
Definition new_Profile (f : ProfileFields.t) : Document :=
  mkDocument None
    (Profile.mk (ProfileFields.user f)
       (ProfileFields.company f) (ProfileFields.website f)
       (ProfileFields.location f) (ProfileFields.bio f)
       (ProfileFields.status f) (ProfileFields.githubusername f)
       (default [] (ProfileFields.skills f))
       (ProfileFields.social f) [] []).

(** [{ $set: fields }] on a stored profile: each key of [fields] replaces
    the value of that key, whole; the other keys keep theirs. *)
Definition set_fields (f : ProfileFields.t) (p : Profile.t) : Profile.t :=
  let keep {A} (new old : option A) : option A :=
    match new with Some v => Some v | None => old end in
  Profile.mk (ProfileFields.user f)
    (keep (ProfileFields.company f) (Profile.company p))
    (keep (ProfileFields.website f) (Profile.website p))
    (keep (ProfileFields.location f) (Profile.location p))
    (keep (ProfileFields.bio f) (Profile.bio p))
    (keep (ProfileFields.status f) (Profile.status p))
    (keep (ProfileFields.githubusername f) (Profile.githubusername p))
    (default (Profile.skills p) (ProfileFields.skills f))
    (ProfileFields.social f)
    (Profile.experiences p)
    (Profile.education p).

(** [Profile.findOneAndUpdate({ user: u }, { $set: f }, { new: true })]:
    updates the first profile of [u] and returns it as updated, [null] when
    [u] has none. *)
Definition Profile_findOneAndUpdate (u : ObjectId) (f : ProfileFields.t)
    : M (option Profile.t) :=
  λ s, match find_index (by_user u) (profiles s) with
       | Some i =>
           match profiles s !! i with
           | Some p =>
               (set_profiles (<[i := set_fields f p]> (profiles s)) s,
                inr (Some (set_fields f p)))
           | None => (s, inr None)
           end
       | None => (s, inr None)
       end.

Definition json_profile (p : option Profile.t) : Body :=
  match p with
  | Some p => JProfile p
  | None => JNull
  end.

Definition post_profile_checks (req : Request ProfileBody.t)
    : list FieldError :=
  check_not_isEmpty ProfileBody.status "status" "Status is required" req ++
  check_not_isEmpty ProfileBody.skills "skills" "Skills is required" req.

(** The handler of [POST /], for the caller [u] and the request [req]. *)
Definition post_profile (u : ObjectId) (req : Request ProfileBody.t)
    : Store → Store * Response :=
  let errors := post_profile_checks req in
  if negb (bool_decide (errors = [])) then
    λ s, (s, res_status_json 400 (JErrors errors))
  else
    let b := req_body req in
    let profilefields := build_profilefields u b in
    try_catch
      (profile ← Profile_findOne u;
       match profile with
       | Some _ =>
           profile ← Profile_findOneAndUpdate u profilefields;
           mret (res_json (json_profile profile))
       | None =>
           let profile := new_Profile profilefields in
           Profile_save profile;;
           mret (res_json (JProfile (doc profile)))
       end)
      (λ err, res_status_send 500 "Server error").

(** [upsertProfile u b] is the handler on the request that carries the
    body [b] and nothing else, and [upsertProfile_checks b] its checks. *)
Definition upsertProfile_checks (b : ProfileBody.t) : list FieldError :=
  post_profile_checks (body_only b).

Definition upsertProfile (u : ObjectId) (b : ProfileBody.t)
    : Store → Store * Response :=
  post_profile u (body_only b).

(** ** [GET /me], [GET /], [GET /user/:user_id] *)

Definition getOwnProfile (u : ObjectId) : Store → Store * Response :=
  try_catch
    (profile ← Profile_findOne u;
     profile ← populate_opt profile;
     match profile with
     | None =>
         mret (res_status_json 400 (JMsg "There is no profile for this user!"))
     | Some p => mret (res_json (JPopulated p))
     end)
    (λ err, res_status_send 500 "Server error!").

Fixpoint populate_all (l : list Profile.t) : M (list Populated) :=
  match l with
  | [] => mret []
  | p :: l' => p ← populate p; l' ← populate_all l'; mret (p :: l')
  end.

Definition listProfiles : Store → Store * Response :=
  try_catch
    (profiles ← Profile_find_all;
     profiles ← populate_all profiles;
     mret (res_json (JPopulatedList profiles)))
    (λ err, res_status_send 500 "Server Error!").

(** Mongoose casts the filter [{ user: req.params.user_id }] when the query
    runs, and the query throws if the cast fails. *)
Definition cast_filter (user_id : jsstring) : M ObjectId :=
  match castObjectId user_id with
  | inr u => mret u
  | inl err => throw err
  end.

(** [x.length] on the result of [findOne]: [null] has no properties, and a
    profile document has no [length], so that the read gives [undefined]
    ([None]). *)
Definition length_of_document {A} (x : option A) : M (option Z) :=
  _ ← deref x; mret None.

(** [n === 0] *)
Definition strict_eq_0 (n : option Z) : bool :=
  match n with
  | Some n => (n =? 0)%Z
  | None => false
  end.

Definition getProfileByUser (user_id : jsstring) : Store → Store * Response :=
  try_catch
    (u ← cast_filter user_id;
     profile ← Profile_findOne u;
     profile ← populate_opt profile;
     len ← length_of_document profile;
     if strict_eq_0 len then
       mret (res_status_json 400 (JMsg "Profile not found!"))
     else
       mret (res_json (match profile with
                       | Some p => JPopulated p
                       | None => JNull
                       end)))
    (λ err,
       if bool_decide (err_kind err = Some "ObjectId") then
         res_status_json 400 (JMsg "Profile not found!")
       else res_status_send 500 "Server Error!").

(** ** [DELETE /]: the caller's posts, profile and user record *)

Definition deleteOwnProfile (u : ObjectId) : Store → Store * Response :=
  try_catch
    (Post_deleteMany u;;
     Profile_findOneAndRemove u;;
     User_findOneAndRemove u;;
     mret (res_json (JMsg "User removed!")))
    (λ err, res_status_send 500 "Server Error!").

(** ** [PUT /experience], [DELETE /experience/:exp_id] *)

Definition put_experience_checks (req : Request ExperienceBody.t)
    : list FieldError :=
  check_not_isEmpty ExperienceBody.title "title" "Title is required" req ++
  check_not_isEmpty ExperienceBody.company "company" "Company is required"
    req ++
  check_not_isEmpty ExperienceBody.from "from" "From date is required" req.

(** [newExp] as it enters the array: Mongoose casts it to a subdocument
    and gives it the fresh identifier [oid]. *)
Definition newExp (oid : jsstring) (b : ExperienceBody.t) : Experience.t :=
  Experience.mk oid
    (ExperienceBody.title b) (ExperienceBody.company b)
    (ExperienceBody.location b) (ExperienceBody.from b)
    (ExperienceBody.to b) (ExperienceBody.current b)
    (ExperienceBody.description b).

(** The handler of [PUT /experience]. *)
Definition put_experience (u : ObjectId) (req : Request ExperienceBody.t)
    (oid : jsstring) : Store → Store * Response :=
  let errors := put_experience_checks req in
  if negb (bool_decide (errors = [])) then
    λ s, (s, res_status_json 400 (JErrors errors))
  else
    let b := req_body req in
    try_catch
      (profile ← Profile_findOne u;
       profile ← deref profile;
       let profile :=
         mkDocument (origin profile)
           (Profile.set_experiences
              (unshift (newExp oid b) (Profile.experiences (doc profile)))
              (doc profile)) in
       Profile_save profile;;
       mret (res_json (JProfile (doc profile))))
      (λ err, res_status_send 500 "Server error!!").

(** The handler on the request that carries the body [b] and nothing
    else. *)
Definition addExperience_checks (b : ExperienceBody.t) : list FieldError :=
  put_experience_checks (body_only b).

Definition addExperience (u : ObjectId) (b : ExperienceBody.t)
    (oid : jsstring) : Store → Store * Response :=
  put_experience u (body_only b) oid.

Definition removeExperience (u : ObjectId) (exp_id : jsstring)
    : Store → Store * Response :=
  try_catch
    (profile ← Profile_findOne u;
     profile ← deref profile;
     let removeIndex :=
       indexOf exp_id
         ((λ item, Experience.id item) <$> Profile.experiences (doc profile)) in
     let profile :=
       mkDocument (origin profile)
         (Profile.set_experiences
            (splice removeIndex 1 (Profile.experiences (doc profile)))
            (doc profile)) in
     Profile_save profile;;
     mret (res_json (JProfile (doc profile))))
    (λ err, res_status_send 500 "Server error!").

(** ** [PUT /education], [DELETE /education/:edu_id] *)

Definition put_education_checks (req : Request EducationBody.t)
    : list FieldError :=
  check_not_isEmpty EducationBody.school "school" "School is required" req ++
  check_not_isEmpty EducationBody.degree "degree" "Degree is required" req ++
  check_not_isEmpty EducationBody.fieldOfStudy "fieldOfStudy"
    "Field of study is required" req ++
  check_not_isEmpty EducationBody.from "from" "From date is required" req.

Definition newEdu (oid : jsstring) (b : EducationBody.t) : Education.t :=
  Education.mk oid
    (EducationBody.school b) (EducationBody.degree b)
    (EducationBody.fieldOfStudy b) (EducationBody.from b)
    (EducationBody.to b) (EducationBody.current b)
    (EducationBody.description b).

(** The handler of [PUT /education]. *)
Definition put_education (u : ObjectId) (req : Request EducationBody.t)
    (oid : jsstring) : Store → Store * Response :=
  let errors := put_education_checks req in
  if negb (bool_decide (errors = [])) then
    λ s, (s, res_status_json 400 (JErrors errors))
  else
    let b := req_body req in
    try_catch
      (profile ← Profile_findOne u;
       profile ← deref profile;
       let profile :=
         mkDocument (origin profile)
           (Profile.set_education
              (unshift (newEdu oid b) (Profile.education (doc profile)))
              (doc profile)) in
       Profile_save profile;;
       mret (res_json (JProfile (doc profile))))
      (λ err, res_status_send 500 "Server error!!").

(** The handler on the request that carries the body [b] and nothing
    else. *)
Definition addEducation_checks (b : EducationBody.t) : list FieldError :=
  put_education_checks (body_only b).

Definition addEducation (u : ObjectId) (b : EducationBody.t)
    (oid : jsstring) : Store → Store * Response :=
  put_education u (body_only b) oid.

Definition removeEducation (u : ObjectId) (edu_id : jsstring)
    : Store → Store * Response :=
  try_catch
    (profile ← Profile_findOne u;
     profile ← deref profile;
     let removeIndex :=
       indexOf edu_id
         ((λ item, Education.id item) <$> Profile.education (doc profile)) in
     let profile :=
       mkDocument (origin profile)
         (Profile.set_education
            (splice removeIndex 1 (Profile.education (doc profile)))
            (doc profile)) in
     Profile_save profile;;
     mret (res_json (JProfile (doc profile))))
    (λ err, res_status_send 500 "Server error!").

(** ** [GET /github/:username] *)

(** [encodeURI] (ECMAScript 18.2.6): letters, digits and the marks below
    stay; every other character is written as the bytes of its UTF-8 form,
    each as [%XX]; a surrogate that is not part of a pair throws. *)
Definition uriUnescaped (c : N) : bool :=
  ((48 <=? c) && (c <=? 57)) || ((65 <=? c) && (c <=? 90)) ||
  ((97 <=? c) && (c <=? 122)) ||
  bool_decide (c ∈ js ";/?:@&=+$,-_.!~*'()#").

Definition hexChar (d : N) : N := if d <? 10 then 48 + d else 55 + d.

Definition percent (byte : N) : jsstring :=
  [37; hexChar (byte / 16); hexChar (byte mod 16)].

Definition utf8 (v : N) : list N :=
  if v <? 128 then [v]
  else if v <? 2048 then [192 + v / 64; 128 + v mod 64]
  else if v <? 65536 then
    [224 + v / 4096; 128 + (v / 64) mod 64; 128 + v mod 64]
  else [240 + v / 262144; 128 + (v / 4096) mod 64;
        128 + (v / 64) mod 64; 128 + v mod 64].

Definition escaped (v : N) : jsstring := mjoin (percent <$> utf8 v).

Definition isLowSurrogate (c : N) : bool := (56320 <=? c) && (c <=? 57343).
Definition isHighSurrogate (c : N) : bool := (55296 <=? c) && (c <=? 56319).

Definition prepend (pre : jsstring) (r : Exn + jsstring) : Exn + jsstring :=
  match r with
  | inr s => inr (pre ++ s)
  | inl e => inl e
  end.

Fixpoint encodeURI (s : jsstring) : Exn + jsstring :=
  match s with
  | [] => inr []
  | c :: s' =>
      if uriUnescaped c then prepend [c] (encodeURI s')
      else if isLowSurrogate c then inl URIError
      else if isHighSurrogate c then
        match s' with
        | c2 :: s'' =>
            if isLowSurrogate c2 then
              prepend
                (escaped ((c - 55296) * 1024 + (c2 - 56320) + 65536))
                (encodeURI s'')
            else inl URIError
        | [] => inl URIError
        end
      else prepend (escaped c) (encodeURI s')
  end.

(** The request handed to [axios.get]. *)
Record GetRequest : Type := mkGetRequest {
  uri : jsstring;
  user_agent : jsstring;      (* headers['user-agent'] *)
  Authorization : jsstring    (* headers.Authorization *)
}.

(** What the handler finds around it: the configuration ([githubToken],
    [None] when the key is not configured, where [config.get] throws) and
    the outcome of a GET, a response body or the error [axios] rejects
    with. *)
Record GithubEnv : Type := mkGithubEnv {
  githubToken : option jsstring;
  axios_get : GetRequest → Exn + jsstring
}.

Definition lift {A} (r : Exn + A) : M A :=
  match r with
  | inr x => mret x
  | inl e => throw e
  end.

Definition config_get (v : option jsstring) : Exn + jsstring :=
  match v with
  | Some x => inr x
  | None => inl ConfigError
  end.

Definition repos_uri (username : jsstring) : jsstring :=
  js "https://api.github.com/users/" ++ username ++
  js "/repos?per_page=5&sort=created:asc".

Definition fetchGithubRepos (env : GithubEnv) (username : jsstring)
    : Store → Store * Response :=
  try_catch
    (uri ← lift (encodeURI (repos_uri username));
     token ← lift (config_get (githubToken env));
     let headers_user_agent := js "node.js" in
     let headers_Authorization := js "token " ++ token in
     githubResponse ←
       lift (axios_get env
               (mkGetRequest uri headers_user_agent headers_Authorization));
     mret (res_json (JData githubResponse)))
    (λ err, res_status_json 404 (JMsg "No Github profile found!!!!")).

(** ** The handlers of [src/routes/api/profile.js] that differ *)

Module RoutesApiProfile.

(** [GET /user/:user_id] of the first router of the file:
    [Profile.find({ user: req.params.user_id })] gives the array of the
    user's profiles, whose [length] is then compared with 0. *)
Definition getProfileByUser (user_id : jsstring)
    : Store → Store * Response :=
  try_catch
    (u ← cast_filter user_id;
     profile ← Profile_find u;
     profile ← populate_all profile;
     if (Z.of_nat (length profile) =? 0)%Z then
       mret (res_status_json 400 (JMsg "Profile not found!"))
     else mret (res_json (JPopulatedList profile)))
    (λ err,
       if bool_decide (err_kind err = Some "ObjectId") then
         res_status_json 400 (JMsg "Profile not found!")
       else res_status_send 500 "Server Error!").

(** [DELETE /] of the first router of the file: removing the posts is a
    [@TODO] comment here. *)
Definition deleteOwnProfile (u : ObjectId) : Store → Store * Response :=
  try_catch
    (Profile_findOneAndRemove u;;
     User_findOneAndRemove u;;
     mret (res_json (JMsg "User removed!")))
    (λ err, res_status_send 500 "Server Error!").

(** [GET /user/:user_id] of the second, shorter router of the file: the
    result is bound to [profiles] and the test reads [profile], which is
    declared nowhere, so that evaluating the test throws. *)
Definition getProfileByUser_second (user_id : jsstring)
    : Store → Store * Response :=
  try_catch
    (u ← cast_filter user_id;
     profiles ← Profile_find u;
     profiles ← populate_all profiles;
     profile ← throw (A := bool) ReferenceError;
     if negb profile then
       mret (res_status_json 400 (JMsg "There is no profile for this user"))
     else mret (res_json (JPopulatedList profiles)))
    (λ err, res_status_send 500 "Server Error!").

End RoutesApiProfile.

(** ** Observations used in the statements *)

(** The profile a [findOne] for [u] returns, [None] for [null]. *)
Definition query_profile (u : ObjectId) (s : Store) : option Profile.t :=
  match (Profile_findOne u s).2 with
  | inr (Some d) => Some (doc d)
  | _ => None
  end.

(** At most one profile names each user. *)
Definition one_profile_per_user (s : Store) : Prop :=
  NoDup (Profile.user <$> profiles s).

(** ** Strings without surrounding white space *)

(** A string with no white space at either end. *)
Definition trimmed (s : jsstring) : Prop :=
  (∀ c, head s = Some c → isWhiteSpace c = false) ∧
  (∀ c, last s = Some c → isWhiteSpace c = false).

(** [t] is [s] without some white space in front and some behind. *)
Definition stripped (s t : jsstring) : Prop :=
  ∃ a b, s = a ++ t ++ b ∧
         Forall (λ c, isWhiteSpace c = true) a ∧
         Forall (λ c, isWhiteSpace c = true) b.

(** ** The query of a request URI *)

(** The part of [s] before the first [c] (all of [s] when there is none),
    and the part after it. *)
Fixpoint before (c : N) (s : jsstring) : jsstring :=
  match s with
  | [] => []
  | x :: s' => if x =? c then [] else x :: before c s'
  end.

Fixpoint after (c : N) (s : jsstring) : option jsstring :=
  match s with
  | [] => None
  | x :: s' => if x =? c then Some s' else after c s'
  end.

(** The query of a URI, between the first [?] and the [#] if any, and its
    [key=value] pairs. *)
Definition query_of (uri : jsstring) : option jsstring :=
  after 63 (before 35 uri).

Definition query_params (uri : jsstring) : list (jsstring * option jsstring) :=
  match query_of uri with
  | None => []
  | Some q => (λ kv, (before 61 kv, after 61 kv)) <$> split 38 q
  end.

Fixpoint query_param (key : jsstring)
    (l : list (jsstring * option jsstring)) : option jsstring :=
  match l with
  | [] => None
  | (k, v) :: l' =>
      if bool_decide (k = key) then v else query_param key l'
  end.

(** A request for the five most recently created repositories, as the
    claim has it: five per page, ordered by creation time, newest first.
    The order is read generously: the key is what [sort] says up to a
    colon, and the direction may come after that colon or in [direction];
    where none is given the API's default for this key, newest first,
    applies. *)
Definition asks_five_newest_created (uri : jsstring) : bool :=
  let q := query_params uri in
  bool_decide (query_param (js "per_page") q = Some (js "5")) &&
  match query_param (js "sort") q with
  | Some v =>
      bool_decide (before 58 v = js "created") &&
      bool_decide (after 58 v = None ∨ after 58 v = Some (js "desc"))
  | None => false
  end &&
  bool_decide (query_param (js "direction") q = None ∨
               query_param (js "direction") q = Some (js "desc")).

(** The response of the catch clause of [GET /github/:username]. *)
Definition no_profile_found : Response :=
  mkResponse 404 (JMsg "No Github profile found!!!!").

(** ** Environments for the GitHub request *)

Module ExGithub.
(** An environment whose GET succeeds and answers with the URI it was
    asked for, which makes the request visible in the response. *)
Definition echo : GithubEnv :=
  mkGithubEnv (Some (js "s3cret")) (λ req, inr (uri req)).
(** Environments whose GET fails: no response, 401, 404. *)
Definition failing (cause : option nat) : GithubEnv :=
  mkGithubEnv (Some (js "s3cret")) (λ req, inl (RequestError cause)).
End ExGithub.

(** ** Sequences of calls *)

Inductive Op : Type :=
  | OpUpsertProfile (u : ObjectId) (b : ProfileBody.t)
  | OpAddExperience (u : ObjectId) (b : ExperienceBody.t) (oid : jsstring)
  | OpAddEducation (u : ObjectId) (b : EducationBody.t) (oid : jsstring)
  | OpRemoveExperience (u : ObjectId) (exp_id : jsstring)
  | OpRemoveEducation (u : ObjectId) (edu_id : jsstring)
  | OpDeleteOwnProfile (u : ObjectId).

Definition step (o : Op) : Store → Store * Response :=
  match o with
  | OpUpsertProfile u b => upsertProfile u b
  | OpAddExperience u b oid => addExperience u b oid
  | OpAddEducation u b oid => addEducation u b oid
  | OpRemoveExperience u exp_id => removeExperience u exp_id
  | OpRemoveEducation u edu_id => removeEducation u edu_id
  | OpDeleteOwnProfile u => deleteOwnProfile u
  end.

(** The store after the calls [ops], one after the other. *)
Fixpoint run (ops : list Op) (s : Store) : Store :=
  match ops with
  | [] => s
  | o :: ops' => run ops' (step o s).1
  end.

(** ** Stores and requests to run the handlers on *)

Module Ex.
Definition alice : ObjectId := 1.
Definition exp_a : Experience.t :=
  Experience.mk (js "a1") (Some (js "Engineer")) (Some (js "Acme"))
    None (Some (js "2018-01-01")) None (Some true) None.
Definition exp_b : Experience.t :=
  Experience.mk (js "b2") (Some (js "Intern")) (Some (js "Initech"))
    None (Some (js "2016-06-01")) (Some (js "2017-06-01")) None None.
Definition edu_a : Education.t :=
  Education.mk (js "c3") (Some (js "MIT")) (Some (js "MSc"))
    (Some (js "CS")) (Some (js "2014-09-01")) None None None.
Definition edu_b : Education.t :=
  Education.mk (js "d4") (Some (js "UCLA")) (Some (js "BSc"))
    (Some (js "Math")) (Some (js "2010-09-01")) None None None.
Definition profile : Profile.t :=
  Profile.mk alice (Some (js "Acme")) (Some (js "acme.example")) None
    (Some (js "hello")) (Some (js "Developer")) (Some (js "alice"))
    [js "node"]
    (Social.mk (Some (js "yt/alice")) (Some (js "tw/alice")) None None None)
    [exp_a; exp_b] [edu_a; edu_b].
Definition post : Post.t := Post.mk alice (js "first post").
Definition store : Store :=
  mkStore [profile] {[ alice := User.mk (js "Alice") (js "a.png") ]} [post].

(** A store with the user but no profile yet. *)
Definition fresh : Store :=
  mkStore [] {[ alice := User.mk (js "Alice") (js "a.png") ]} [].

(** A well-formed id (24 hexadecimal digits) that no profile names. *)
Definition absent_id : jsstring := js "5d7a514b5d2c12c7449be042".

(** A second POST: new status and skills, one social link, the rest
    omitted. *)
Definition repost : ProfileBody.t :=
  ProfileBody.mk None None None None (Some (js "Senior Developer")) None
    (Some (js "node, react , express")) None None None
    (Some (js "ig/alice")) None.

Definition no_required : ProfileBody.t :=
  ProfileBody.mk (Some (js "Acme")) None None None None None (Some [])
    None None None None None.

Definition E1 : ExperienceBody.t :=
  ExperienceBody.mk (Some (js "Engineer")) (Some (js "Acme")) None
    (Some (js "2018-01-01")) None (Some true) None.
Definition E2 : ExperienceBody.t :=
  ExperienceBody.mk (Some (js "Lead")) (Some (js "Globex")) None
    (Some (js "2020-01-01")) None None None.
Definition D1 : EducationBody.t :=
  EducationBody.mk (Some (js "MIT")) (Some (js "MSc")) (Some (js "CS"))
    (Some (js "2014-09-01")) None None None.
Definition D2 : EducationBody.t :=
  EducationBody.mk (Some (js "ETH")) (Some (js "PhD")) (Some (js "CS"))
    (Some (js "2016-09-01")) None None None.
End Ex.

(** ** Where a request carries a field *)

(** The error [check] records for the body when no other location carries
    the field. *)
Definition body_check (field message : string) (v : option jsstring)
    : list FieldError :=
  if isEmpty v then [mkFieldError "body" field message v] else [].

(** No cookie, header, route parameter or query parameter carries the
    field. *)
Definition only_in_body {B} (field : string) (req : Request B) : Prop :=
  req_cookies req !! field = None ∧
  req_headers req !! toLowerCase field = None ∧
  req_params req !! field = None ∧
  req_query req !! field = None.

(** The field is missing from the request, or empty where it is carried:
    no location has a value for it, or some location has the empty
    string. *)
Definition missing_or_empty {B} (get : B → option jsstring) (field : string)
    (req : Request B) : Prop :=
  Forall (λ i, i.2 = None) (field_locations get field req) ∨
  Exists (λ i, i.2 = Some []) (field_locations get field req).

Module ExRequest.
(** An empty body, with status and skills in the query string. *)
Definition in_query : Request ProfileBody.t :=
  mkRequest
    (ProfileBody.mk None None None None None None None None None None None
       None)
    ∅ ∅ ∅
    (<[ "status" := js "x" ]> {[ "skills" := js "y" ]}).
(** A body with skills and no status, and an empty skills in the query
    string as well. *)
Definition empty_in_query : Request ProfileBody.t :=
  mkRequest
    (ProfileBody.mk None None None None None None
       (Some (js "coq")) None None None None None)
    ∅ ∅ ∅ {[ "skills" := [] ]}.
(** An experience with everything in the body but the title, which a
    header named [title] carries, empty. *)
Definition title_header : Request ExperienceBody.t :=
  mkRequest
    (ExperienceBody.mk None (Some (js "Acme")) None (Some (js "2018-01-01"))
       None None None)
    ∅ {[ "title" := [] ]} ∅ ∅.
End ExRequest.

(** ** More observations and a second example store *)

(** The first element of [l] that [f] accepts. *)
Definition find_first {A} (f : A → bool) (l : list A) : option A :=
  i ← find_index f l; l !! i.

(** How often the code unit [c] occurs in [s]. *)
Definition occurrences (c : N) (s : list N) : nat :=
  length (filter (λ x, x = c) s).

(** What [populate] makes of a profile in the store [s]. *)
Definition populated (s : Store) (p : Profile.t) : Populated :=
  (p, users s !! Profile.user p).

(** The calls that are not [DELETE /]. *)
Definition is_delete (o : Op) : bool :=
  match o with
  | OpDeleteOwnProfile _ => true
  | _ => false
  end.

(** [p'] is [p] but for its experiences, or but for its education. *)
Definition only_experiences_differ (p p' : Profile.t) : Prop :=
  p' = Profile.set_experiences (Profile.experiences p') p.

Definition only_education_differ (p p' : Profile.t) : Prop :=
  p' = Profile.set_education (Profile.education p') p.

(** [s'] is [s], or [s] with the first profile of [u] rewritten where it
    is into a profile that [same] relates to it. *)
Definition rewritten_in_place (u : ObjectId)
    (same : Profile.t → Profile.t → Prop) (s s' : Store) : Prop :=
  s' = s ∨
  ∃ i p p',
    find_index (by_user u) (profiles s) = Some i ∧
    profiles s !! i = Some p ∧ same p p' ∧
    s' = set_profiles (<[i := p']> (profiles s)) s.

Module Ex2.
Definition bob : ObjectId := 2.
Definition bob_profile : Profile.t :=
  Profile.mk bob None None (Some (js "Paris")) None (Some (js "Student"))
    None [js "coq"; js "ocaml"] (Social.mk None None None None None) [] [].
Definition bob_post : Post.t := Post.mk bob (js "hello from bob").
(** Alice and Bob, each with a profile, a user record and a post. *)
Definition store : Store :=
  mkStore [Ex.profile; bob_profile]
    (<[ bob := User.mk (js "Bob") (js "b.png") ]>
       {[ Ex.alice := User.mk (js "Alice") (js "a.png") ]})
    [Ex.post; bob_post].
End Ex2.

(** ** Facts about the queries *)

Section find_index.
Context {A : Type} (f : A → bool).

Lemma find_index_Some (l : list A) (i : nat) :
  find_index f l = Some i →
  ∃ x, l !! i = Some x ∧ f x = true ∧
       ∀ j y, (j < i)%nat → l !! j = Some y → f y = false.
Proof.
  revert i. induction l as [|a l IH]; intros i; simpl; [done|].
  destruct (f a) eqn:Hfa.
  - intros [= <-]. exists a. split_and!; [done..|]. intros; lia.
  - destruct (find_index f l) as [k|] eqn:Hk; [|done].
    intros [= <-]. destruct (IH k eq_refl) as (x & Hx & Hfx & Hlt).
    exists x. split_and!; [done..|].
    intros [|j] y Hj; simpl; [by intros [= <-]|].
    apply Hlt. lia.
Qed.

Lemma find_index_None (l : list A) :
  find_index f l = None ↔ ∀ x, x ∈ l → f x = false.
Proof.
  induction l as [|a l IH]; simpl.
  - split; [by intros _ x ?%elem_of_nil|done].
  - destruct (f a) eqn:Hfa.
    + split; [done|]. intros H. specialize (H a (list_elem_of_here _ _)).
      congruence.
    + rewrite fmap_None, IH. split.
      * intros H x [->|?]%elem_of_cons; auto.
      * intros H x Hx. apply H. by right.
Qed.

Lemma find_index_insert (l : list A) (i : nat) (y : A) :
  find_index f l = Some i → f y = true →
  find_index f (<[i := y]> l) = Some i.
Proof.
  revert i. induction l as [|a l IH]; intros i; simpl; [done|].
  destruct (f a) eqn:Hfa.
  - intros [= <-] Hy. simpl. by rewrite Hy.
  - destruct (find_index f l) as [k|] eqn:Hk; [|done].
    intros [= <-] Hy. simpl. by rewrite Hfa, (IH k eq_refl Hy).
Qed.

Lemma find_index_snoc (l : list A) (y : A) :
  find_index f l = None → f y = true →
  find_index f (l ++ [y]) = Some (length l).
Proof.
  induction l as [|a l IH]; simpl; intros Hl Hy.
  - by rewrite Hy.
  - destruct (f a); [done|].
    apply fmap_None in Hl. by rewrite (IH Hl Hy).
Qed.
End find_index.

Lemma by_user_true (u : ObjectId) (p : Profile.t) :
  by_user u p = true ↔ Profile.user p = u.
Proof. unfold by_user. by rewrite bool_decide_eq_true. Qed.

Lemma query_profile_Some (u : ObjectId) (s : Store) (p : Profile.t) :
  query_profile u s = Some p ↔
  ∃ i, find_index (by_user u) (profiles s) = Some i ∧ profiles s !! i = Some p.
Proof.
  unfold query_profile, Profile_findOne, gets; simpl.
  destruct (find_index (by_user u) (profiles s)) as [i|] eqn:Hi; simpl.
  - destruct (profiles s !! i) as [q|] eqn:Hq; simpl.
    + split; [intros [= <-]; eauto|]. intros (? & [= <-] & ?). congruence.
    + split; [done|]. intros (? & [= <-] & ?). congruence.
  - split; [done|]. by intros (? & ? & ?).
Qed.

Lemma query_profile_None (u : ObjectId) (s : Store) :
  query_profile u s = None ↔ find_index (by_user u) (profiles s) = None.
Proof.
  unfold query_profile, Profile_findOne, gets; simpl.
  destruct (find_index (by_user u) (profiles s)) as [i|] eqn:Hi; simpl.
  - destruct (find_index_Some _ _ _ Hi) as (x & -> & _). simpl. done.
  - done.
Qed.

Lemma query_profile_user (u : ObjectId) (s : Store) (p : Profile.t) :
  query_profile u s = Some p → Profile.user p = u.
Proof.
  intros (i & Hi & Hp)%query_profile_Some.
  destruct (find_index_Some _ _ _ Hi) as (x & Hx & Hfx & _).
  apply by_user_true. congruence.
Qed.

(** ** The checks on a request that carries its fields in the body *)

Lemma check_not_isEmpty_only_in_body {B} (get : B → option jsstring)
    (field message : string) (req : Request B) :
  only_in_body field req →
  check_not_isEmpty get field message req
  = body_check field message (get (req_body req)).
Proof.
  intros (Hc & Hh & Hp & Hq).
  unfold check_not_isEmpty, field_locations, body_check.
  rewrite Hc, Hh, Hp, Hq.
  by destruct (get (req_body req)) as [[|c v]|].
Qed.

Lemma only_in_body_body_only {B} (field : string) (b : B) :
  only_in_body field (body_only b).
Proof. unfold only_in_body, body_only. simpl. by rewrite !lookup_empty. Qed.

Lemma upsertProfile_checks_body (b : ProfileBody.t) :
  upsertProfile_checks b =
    body_check "status" "Status is required" (ProfileBody.status b) ++
    body_check "skills" "Skills is required" (ProfileBody.skills b).
Proof.
  unfold upsertProfile_checks, post_profile_checks.
  by rewrite !check_not_isEmpty_only_in_body
    by apply only_in_body_body_only.
Qed.

Lemma addExperience_checks_body (b : ExperienceBody.t) :
  addExperience_checks b =
    body_check "title" "Title is required" (ExperienceBody.title b) ++
    body_check "company" "Company is required" (ExperienceBody.company b) ++
    body_check "from" "From date is required" (ExperienceBody.from b).
Proof.
  unfold addExperience_checks, put_experience_checks.
  by rewrite !check_not_isEmpty_only_in_body
    by apply only_in_body_body_only.
Qed.

Lemma addEducation_checks_body (b : EducationBody.t) :
  addEducation_checks b =
    body_check "school" "School is required" (EducationBody.school b) ++
    body_check "degree" "Degree is required" (EducationBody.degree b) ++
    body_check "fieldOfStudy" "Field of study is required"
      (EducationBody.fieldOfStudy b) ++
    body_check "from" "From date is required" (EducationBody.from b).
Proof.
  unfold addEducation_checks, put_education_checks.
  by rewrite !check_not_isEmpty_only_in_body
    by apply only_in_body_body_only.
Qed.

Lemma upsertProfile_unfold (u : ObjectId) (b : ProfileBody.t) :
  upsertProfile u b =
    let errors := upsertProfile_checks b in
    if negb (bool_decide (errors = [])) then
      λ s, (s, res_status_json 400 (JErrors errors))
    else
      let profilefields := build_profilefields u b in
      try_catch
        (profile ← Profile_findOne u;
         match profile with
         | Some _ =>
             profile ← Profile_findOneAndUpdate u profilefields;
             mret (res_json (json_profile profile))
         | None =>
             let profile := new_Profile profilefields in
             Profile_save profile;;
             mret (res_json (JProfile (doc profile)))
         end)
        (λ err, res_status_send 500 "Server error").
Proof. reflexivity. Qed.

Lemma addExperience_unfold (u : ObjectId) (b : ExperienceBody.t)
    (oid : jsstring) :
  addExperience u b oid =
    let errors := addExperience_checks b in
    if negb (bool_decide (errors = [])) then
      λ s, (s, res_status_json 400 (JErrors errors))
    else
      try_catch
        (profile ← Profile_findOne u;
         profile ← deref profile;
         let profile :=
           mkDocument (origin profile)
             (Profile.set_experiences
                (unshift (newExp oid b) (Profile.experiences (doc profile)))
                (doc profile)) in
         Profile_save profile;;
         mret (res_json (JProfile (doc profile))))
        (λ err, res_status_send 500 "Server error!!").
Proof. reflexivity. Qed.

Lemma addEducation_unfold (u : ObjectId) (b : EducationBody.t)
    (oid : jsstring) :
  addEducation u b oid =
    let errors := addEducation_checks b in
    if negb (bool_decide (errors = [])) then
      λ s, (s, res_status_json 400 (JErrors errors))
    else
      try_catch
        (profile ← Profile_findOne u;
         profile ← deref profile;
         let profile :=
           mkDocument (origin profile)
             (Profile.set_education
                (unshift (newEdu oid b) (Profile.education (doc profile)))
                (doc profile)) in
         Profile_save profile;;
         mret (res_json (JProfile (doc profile))))
        (λ err, res_status_send 500 "Server error!!").
Proof. reflexivity. Qed.

(** ** [POST /]: what a request that passes the checks does *)

Lemma upsertProfile_update (s : Store) (u : ObjectId) (b : ProfileBody.t)
    (i : nat) (p : Profile.t) :
  upsertProfile_checks b = [] →
  find_index (by_user u) (profiles s) = Some i →
  profiles s !! i = Some p →
  upsertProfile u b s =
    (set_profiles (<[i := set_fields (build_profilefields u b) p]> (profiles s)) s,
     res_json (JProfile (set_fields (build_profilefields u b) p))).
Proof.
  intros Hb Hi Hp. rewrite upsertProfile_unfold; cbv zeta. rewrite Hb. simpl.
  unfold try_catch, mbind, M_bind, Profile_findOne, gets. simpl.
  rewrite Hi. simpl. rewrite Hp. simpl.
  unfold Profile_findOneAndUpdate. by rewrite Hi, Hp.
Qed.

Lemma upsertProfile_create (s : Store) (u : ObjectId) (b : ProfileBody.t) :
  upsertProfile_checks b = [] →
  find_index (by_user u) (profiles s) = None →
  upsertProfile u b s =
    (set_profiles (profiles s ++ [doc (new_Profile (build_profilefields u b))]) s,
     res_json (JProfile (doc (new_Profile (build_profilefields u b))))).
Proof.
  intros Hb Hi. rewrite upsertProfile_unfold; cbv zeta. rewrite Hb. simpl.
  unfold try_catch, mbind, M_bind, Profile_findOne, gets. simpl.
  by rewrite Hi.
Qed.

Lemma upsertProfile_invalid (s : Store) (u : ObjectId) (b : ProfileBody.t) :
  upsertProfile_checks b ≠ [] →
  upsertProfile u b s =
    (s, res_status_json 400 (JErrors (upsertProfile_checks b))).
Proof.
  intros Hb. rewrite upsertProfile_unfold; cbv zeta.
  by rewrite bool_decide_eq_false_2.
Qed.

Lemma assign_if_falsy (x : option jsstring) :
  truthy x = false → assign_if x = None.
Proof. unfold assign_if. by intros ->. Qed.

Lemma assign_if_truthy (x : option jsstring) :
  truthy x = true → assign_if x = x.
Proof. unfold assign_if. by intros ->. Qed.

(** ** Facts about [split] and [trim] *)

Lemma split_not_nil (sep : N) (s : jsstring) : split sep s ≠ [].
Proof.
  destruct s as [|c s]; simpl; [done|].
  destruct (c =? sep); [done|]. by destruct (split sep s).
Qed.

Lemma join_cons (sep : N) (seg : jsstring) (rest : list jsstring) :
  rest ≠ [] → join sep (seg :: rest) = seg ++ sep :: join sep rest.
Proof. by destruct rest. Qed.

Lemma join_split (sep : N) (s : jsstring) : join sep (split sep s) = s.
Proof.
  induction s as [|c s IH]; [done|]. simpl.
  destruct (N.eqb_spec c sep) as [->|Hne].
  - rewrite join_cons by apply split_not_nil. simpl. by rewrite IH.
  - pose proof (split_not_nil sep s) as Hnil.
    destruct (split sep s) as [|seg rest]; [done|].
    destruct rest as [|seg' rest]; simpl in *; by rewrite <- IH.
Qed.

Lemma split_no_sep (sep : N) (s : jsstring) :
  Forall (λ seg, sep ∉ seg) (split sep s).
Proof.
  induction s as [|c s IH]; simpl.
  - repeat constructor. apply not_elem_of_nil.
  - destruct (N.eqb_spec c sep) as [->|Hne].
    + constructor; [apply not_elem_of_nil|done].
    + destruct (split sep s) as [|seg rest].
      * repeat constructor. by intros ->%list_elem_of_singleton.
      * inversion_clear IH as [|?? Hseg Hrest]. constructor; [|done].
        intros [->|?]%elem_of_cons; done.
Qed.

Lemma trimStart_stripped (s : jsstring) :
  ∃ a, s = a ++ trimStart s ∧ Forall (λ c, isWhiteSpace c = true) a.
Proof.
  induction s as [|c s (a & Ha & Hws)]; simpl.
  - by exists [].
  - destruct (isWhiteSpace c) eqn:Hc.
    + exists (c :: a). split; [by rewrite <- app_comm_cons, <- Ha|].
      by constructor.
    + by exists [].
Qed.

Lemma trimStart_head (s : jsstring) (c : N) :
  head (trimStart s) = Some c → isWhiteSpace c = false.
Proof.
  induction s as [|x s IH]; simpl; [done|].
  destruct (isWhiteSpace x) eqn:Hx; [done|]. simpl. by intros [= <-].
Qed.

Lemma trimEnd_stripped (s : jsstring) :
  ∃ b, s = trimEnd s ++ b ∧ Forall (λ c, isWhiteSpace c = true) b.
Proof.
  unfold trimEnd.
  destruct (trimStart_stripped (reverse s)) as (a & Ha & Hws).
  exists (reverse a). split.
  - rewrite <- reverse_app, <- Ha. by rewrite reverse_involutive.
  - by apply Forall_reverse.
Qed.

Lemma trimEnd_last (s : jsstring) (c : N) :
  last (trimEnd s) = Some c → isWhiteSpace c = false.
Proof.
  unfold trimEnd. rewrite last_reverse. apply trimStart_head.
Qed.

Lemma trimEnd_head (s : jsstring) (c : N) :
  (∀ c, head s = Some c → isWhiteSpace c = false) →
  head (trimEnd s) = Some c → isWhiteSpace c = false.
Proof.
  intros Hs Hc. destruct (trimEnd_stripped s) as (b & Hb & _).
  apply Hs. rewrite Hb. destruct (trimEnd s); [done|]. done.
Qed.

Lemma trim_trimmed (s : jsstring) : trimmed (trim s).
Proof.
  unfold trim. split; intros c.
  - apply trimEnd_head, trimStart_head.
  - apply trimEnd_last.
Qed.

Lemma trim_stripped (s : jsstring) : stripped s (trim s).
Proof.
  unfold trim.
  destruct (trimStart_stripped s) as (a & Ha & Hwa).
  destruct (trimEnd_stripped (trimStart s)) as (b & Hb & Hwb).
  exists a, b. split_and!; [|done..]. by rewrite <- Hb.
Qed.

Lemma stripped_elem_of (s t : jsstring) (c : N) :
  stripped s t → c ∈ t → c ∈ s.
Proof.
  intros (a & b & -> & _) Hc. rewrite !elem_of_app. auto.
Qed.

Lemma by_user_set_fields (u : ObjectId) (b : ProfileBody.t) (p : Profile.t) :
  by_user u (set_fields (build_profilefields u b) p) = true.
Proof. by apply by_user_true. Qed.

Lemma by_user_new_Profile (u : ObjectId) (b : ProfileBody.t) :
  by_user u (doc (new_Profile (build_profilefields u b))) = true.
Proof. by apply by_user_true. Qed.

(** After a request that passes the checks, the caller has a profile, the
    one in the response. *)
Lemma upsertProfile_stored (s : Store) (u : ObjectId) (b : ProfileBody.t) :
  upsertProfile_checks b = [] →
  ∃ p', (upsertProfile u b s).2 = res_json (JProfile p') ∧
        query_profile u (upsertProfile u b s).1 = Some p' ∧
        p' = match query_profile u s with
             | Some p => set_fields (build_profilefields u b) p
             | None => doc (new_Profile (build_profilefields u b))
             end.
Proof.
  intros Hb. destruct (query_profile u s) as [p|] eqn:Hq.
  - pose proof Hq as (i & Hi & Hp)%query_profile_Some.
    rewrite (upsertProfile_update s u b i p Hb Hi Hp). simpl.
    eexists. split_and!; [done| |done].
    apply query_profile_Some. exists i. simpl. split.
    + apply find_index_insert; [done|apply by_user_set_fields].
    + apply list_lookup_insert_eq. by eapply lookup_lt_Some.
  - pose proof Hq as Hi%query_profile_None.
    rewrite (upsertProfile_create s u b Hb Hi). simpl.
    eexists. split_and!; [done| |done].
    apply query_profile_Some. exists (length (profiles s)). simpl. split.
    + apply find_index_snoc; [done|apply by_user_new_Profile].
    + by rewrite lookup_app_r, Nat.sub_diag.
Qed.

(** ** [POST /]: the claims on it *)

(** C1.  For a user who already has a profile, a POST that passes the
    checks rewrites that profile where it is: the collection afterwards
    is the old one with this one document replaced, so the owners, position
    by position, are as before and no second profile appears.  Each of
    [company], [website], [location], [bio] and [githubusername] that the
    request omits (absent, or the empty string, which the handler treats
    alike) keeps its value, and so do the experiences and the education.
    What the request gives is written: the profile afterwards has the
    request's status, the skills split and trimmed from the request's, and
    the request's value in each of the five optional fields it gives. *)
Theorem upsertProfile_updates_in_place
    (s : Store) (u : ObjectId) (b : ProfileBody.t) (p : Profile.t) :
  query_profile u s = Some p →
  upsertProfile_checks b = [] →
  ∃ i p',
    profiles s !! i = Some p ∧
    upsertProfile u b s =
      (set_profiles (<[i := p']> (profiles s)) s, res_json (JProfile p')) ∧
    query_profile u (upsertProfile u b s).1 = Some p' ∧
    Profile.user <$> profiles (upsertProfile u b s).1
      = Profile.user <$> profiles s ∧
    (truthy (ProfileBody.company b) = false →
       Profile.company p' = Profile.company p) ∧
    (truthy (ProfileBody.website b) = false →
       Profile.website p' = Profile.website p) ∧
    (truthy (ProfileBody.location b) = false →
       Profile.location p' = Profile.location p) ∧
    (truthy (ProfileBody.bio b) = false → Profile.bio p' = Profile.bio p) ∧
    (truthy (ProfileBody.githubusername b) = false →
       Profile.githubusername p' = Profile.githubusername p) ∧
    Profile.experiences p' = Profile.experiences p ∧
    Profile.education p' = Profile.education p ∧
    Profile.user p' = u ∧
    Profile.status p' = ProfileBody.status b ∧
    Some (Profile.skills p') =
      (λ skills, trim <$> split comma skills) <$> ProfileBody.skills b ∧
    (truthy (ProfileBody.company b) = true →
       Profile.company p' = ProfileBody.company b) ∧
    (truthy (ProfileBody.website b) = true →
       Profile.website p' = ProfileBody.website b) ∧
    (truthy (ProfileBody.location b) = true →
       Profile.location p' = ProfileBody.location b) ∧
    (truthy (ProfileBody.bio b) = true → Profile.bio p' = ProfileBody.bio b) ∧
    (truthy (ProfileBody.githubusername b) = true →
       Profile.githubusername p' = ProfileBody.githubusername b).
Proof.
  intros Hq Hb.
  pose proof Hq as (i & Hi & Hp)%query_profile_Some.
  destruct (upsertProfile_stored s u b Hb) as (p' & _ & Hq' & ->).
  rewrite Hq in Hq'.
  exists i, (set_fields (build_profilefields u b) p).
  pose proof (upsertProfile_update s u b i p Hb Hi Hp) as Hrun.
  assert (Hgiven : truthy (ProfileBody.status b) = true ∧
                   truthy (ProfileBody.skills b) = true).
  { rewrite upsertProfile_checks_body in Hb. unfold body_check in Hb.
    apply app_eq_nil in Hb as [H1 H2].
    destruct (ProfileBody.status b) as [[|??]|], (ProfileBody.skills b)
      as [[|??]|]; done. }
  destruct Hgiven as [Hstatus Hskills].
  split_and!; try done.
  - rewrite Hrun. simpl. rewrite list_fmap_insert. apply list_insert_id.
    rewrite list_lookup_fmap, Hp. simpl. f_equal.
    by eapply query_profile_user.
  - intros H. simpl. by rewrite (assign_if_falsy _ H).
  - intros H. simpl. by rewrite (assign_if_falsy _ H).
  - intros H. simpl. by rewrite (assign_if_falsy _ H).
  - intros H. simpl. by rewrite (assign_if_falsy _ H).
  - intros H. simpl. by rewrite (assign_if_falsy _ H).
  - simpl. rewrite (assign_if_truthy _ Hstatus).
    by destruct (ProfileBody.status b).
  - simpl. rewrite Hskills. by destruct (ProfileBody.skills b).
  - intros H. simpl. rewrite (assign_if_truthy _ H).
    by destruct (ProfileBody.company b).
  - intros H. simpl. rewrite (assign_if_truthy _ H).
    by destruct (ProfileBody.website b).
  - intros H. simpl. rewrite (assign_if_truthy _ H).
    by destruct (ProfileBody.location b).
  - intros H. simpl. rewrite (assign_if_truthy _ H).
    by destruct (ProfileBody.bio b).
  - intros H. simpl. rewrite (assign_if_truthy _ H).
    by destruct (ProfileBody.githubusername b).
Qed.

(** C4.  On a create that succeeds (no profile yet, the checks pass), the
    stored [skills] is the input split at its commas with each segment
    trimmed.  Said without the two functions: the input is the segments
    joined by commas, no segment holds a comma, and each stored skill is
    its segment less some white space in front and behind, none being left
    at either end.  No stored skill holds a comma. *)
Theorem upsertProfile_create_skills
    (s : Store) (u : ObjectId) (b : ProfileBody.t) (input : jsstring) :
  query_profile u s = None →
  ProfileBody.skills b = Some input →
  upsertProfile_checks b = [] →
  ∃ p,
    upsertProfile u b s =
      (set_profiles (profiles s ++ [p]) s, res_json (JProfile p)) ∧
    query_profile u (upsertProfile u b s).1 = Some p ∧
    Profile.skills p = trim <$> split comma input ∧
    (∃ segments,
       join comma segments = input ∧
       Forall (λ seg, comma ∉ seg) segments ∧
       Forall2 (λ seg skill, stripped seg skill ∧ trimmed skill)
         segments (Profile.skills p)) ∧
    Forall (λ skill, comma ∉ skill) (Profile.skills p).
Proof.
  intros Hq Hskills Hb.
  pose proof Hq as Hi%query_profile_None.
  destruct (upsertProfile_stored s u b Hb) as (p & _ & Hq' & ->).
  rewrite Hq in Hq'.
  eexists. split; [by apply upsertProfile_create|].
  split; [done|].
  assert (Hstored :
    Profile.skills (doc (new_Profile (build_profilefields u b)))
    = trim <$> split comma input).
  { simpl. rewrite Hskills.
    assert (truthy (Some input) = true) as ->; [|done].
    rewrite upsertProfile_checks_body in Hb. unfold body_check in Hb.
    rewrite Hskills in Hb. apply app_eq_nil in Hb as [_ Hb].
    by destruct input. }
  rewrite Hstored. split_and!; [done| |].
  - exists (split comma input).
    split_and!; [apply join_split|apply split_no_sep|].
    apply Forall2_fmap_r, Forall_Forall2_diag, Forall_forall.
    intros seg _. split; [apply trim_stripped|apply trim_trimmed].
  - apply Forall_fmap, Forall_forall. intros seg Hseg. simpl.
    intros Hc. apply (stripped_elem_of _ _ _ (trim_stripped seg)) in Hc.
    pose proof (split_no_sep comma input) as Hno.
    rewrite Forall_forall in Hno. by apply (Hno seg).
Qed.

(** *** What [check] rejects *)

Lemma not_isEmpty_errors_elem (field message : string)
    (instances : list (string * option jsstring)) (e : FieldError) :
  e ∈ not_isEmpty_errors field message instances ↔
  ∃ i, i ∈ instances ∧ isEmpty i.2 = true ∧
       e = mkFieldError i.1 field message i.2.
Proof.
  unfold not_isEmpty_errors. rewrite list_elem_of_bind. split.
  - intros (i & He & Hi). exists i. destruct (isEmpty i.2) eqn:Hempty.
    + apply list_elem_of_singleton in He. done.
    + by apply elem_of_nil in He.
  - intros (i & Hi & Hempty & ->). exists i. rewrite Hempty.
    split; [by apply list_elem_of_singleton|done].
Qed.

Lemma select_instances_elem (instances : list (string * option jsstring))
    (i : string * option jsstring) :
  i ∈ select_instances instances →
  i ∈ instances ∧
  (is_Some i.2 ∨ Forall (λ i, i.2 = None) instances).
Proof.
  unfold select_instances. case_bool_decide as Hnone.
  - intros Hi. split.
    { destruct instances as [|j l]; simpl in Hi;
        [by apply elem_of_nil in Hi|].
      rewrite take_0 in Hi. apply list_elem_of_singleton in Hi as ->.
      by left. }
    right.
    apply Forall_forall. intros j Hj.
    destruct j.2 as [v|] eqn:Hv; [|done].
    assert (j ∈ filter (λ i, is_Some i.2) instances) as Hin
      by (apply list_elem_of_filter; rewrite Hv; eauto).
    rewrite Hnone in Hin. by apply elem_of_nil in Hin.
  - intros [Hsome Hi]%list_elem_of_filter. auto.
Qed.

Lemma select_instances_all_None (instances : list (string * option jsstring)) :
  Forall (λ i, i.2 = None) instances →
  select_instances instances = take 1 instances.
Proof.
  intros Hnone. unfold select_instances.
  rewrite bool_decide_eq_true_2; [done|].
  induction Hnone as [|i l Hi _ IH]; [done|].
  rewrite filter_cons_False; [done|]. rewrite Hi. by intros [? ?].
Qed.

Lemma select_instances_with_value (instances : list (string * option jsstring))
    (i : string * option jsstring) :
  i ∈ instances → is_Some i.2 → i ∈ select_instances instances.
Proof.
  intros Hi Hsome. unfold select_instances.
  assert (i ∈ filter (λ i, is_Some i.2) instances) as Hin
    by by apply list_elem_of_filter.
  case_bool_decide as Hnone; [|done].
  rewrite Hnone in Hin. by apply elem_of_nil in Hin.
Qed.

(** [check] records an error exactly when the field is missing from the
    request or empty in a location that carries it. *)
Lemma check_not_isEmpty_rejects {B} (get : B → option jsstring)
    (field message : string) (req : Request B) :
  check_not_isEmpty get field message req ≠ [] ↔
  missing_or_empty get field req.
Proof.
  unfold check_not_isEmpty, missing_or_empty.
  set (l := field_locations get field req).
  assert (Hl : ∃ i l', l = i :: l') by (unfold l, field_locations; eauto).
  clearbody l. split.
  - intros Hne.
    destruct (not_isEmpty_errors field message (select_instances l))
      as [|e errors] eqn:He; [done|].
    assert (e ∈ not_isEmpty_errors field message (select_instances l)) as Hin
      by (rewrite He; left).
    apply not_isEmpty_errors_elem in Hin as (i & Hi & Hempty & _).
    apply select_instances_elem in Hi as (Hi & [[v Hv]|Hnone]); [|by left].
    right. apply Exists_exists. exists i. split; [done|].
    simpl. rewrite Hv in Hempty. by destruct v; [exact Hv|].
  - intros [Hnone|Hempty].
    + destruct Hl as (i & l' & ->).
      rewrite (select_instances_all_None _ Hnone). simpl.
      apply Forall_cons in Hnone as [Hi _]. unfold not_isEmpty_errors.
      simpl. by rewrite Hi.
    + apply Exists_exists in Hempty as ([loc v] & Hi & Hv).
      simpl in Hv. subst v.
      assert (mkFieldError loc field message (Some [])
                ∈ not_isEmpty_errors field message (select_instances l))
        as Hin.
      { apply not_isEmpty_errors_elem. exists (loc, Some []).
        split_and!; [|done..].
        apply select_instances_with_value; [done|]. simpl. eauto. }
      intros Hnil. rewrite Hnil in Hin. by apply elem_of_nil in Hin.
Qed.

Lemma check_not_isEmpty_elem {B} (get : B → option jsstring)
    (field message : string) (req : Request B) (e : FieldError) :
  e ∈ check_not_isEmpty get field message req →
  param e = field ∧ msg e = message ∧ isEmpty (value e) = true ∧
  missing_or_empty get field req.
Proof.
  intros He. split_and!.
  - by apply not_isEmpty_errors_elem in He as (i & _ & _ & ->).
  - by apply not_isEmpty_errors_elem in He as (i & _ & _ & ->).
  - by apply not_isEmpty_errors_elem in He as (i & _ & Hempty & ->).
  - apply (check_not_isEmpty_rejects get field message).
    intros Hnil. rewrite Hnil in He. by apply elem_of_nil in He.
Qed.

Lemma rejected_has_error {B} (get : B → option jsstring)
    (field message : string) (req : Request B) :
  missing_or_empty get field req →
  ∃ e, e ∈ check_not_isEmpty get field message req ∧
       param e = field ∧ msg e = message.
Proof.
  intros Hne%(check_not_isEmpty_rejects get field message).
  destruct (check_not_isEmpty get field message req) as [|e l] eqn:He;
    [done|].
  exists e.
  assert (e ∈ check_not_isEmpty get field message req) as Hin
    by (rewrite He; left).
  rewrite <- He.
  split; [done|]. by destruct (check_not_isEmpty_elem _ _ _ _ _ Hin) as (? & ? & _).
Qed.

Lemma post_profile_invalid (s : Store) (u : ObjectId)
    (req : Request ProfileBody.t) :
  post_profile_checks req ≠ [] →
  post_profile u req s =
    (s, res_status_json 400 (JErrors (post_profile_checks req))).
Proof.
  intros Hne. unfold post_profile. cbv zeta.
  by rewrite bool_decide_eq_false_2.
Qed.

(** A request that carries status and skills in no cookie, header, route
    parameter or query parameter is handled as its body alone decides. *)
Lemma post_profile_only_in_body (s : Store) (u : ObjectId)
    (req : Request ProfileBody.t) :
  only_in_body "status" req → only_in_body "skills" req →
  post_profile_checks req = upsertProfile_checks (req_body req) ∧
  post_profile u req s = upsertProfile u (req_body req) s.
Proof.
  intros Hstatus Hskills.
  assert (Hchecks : post_profile_checks req = upsertProfile_checks (req_body req)).
  { rewrite upsertProfile_checks_body. unfold post_profile_checks.
    by rewrite !check_not_isEmpty_only_in_body. }
  split; [done|].
  rewrite upsertProfile_unfold. unfold post_profile. cbv zeta.
  by rewrite Hchecks.
Qed.

(** C5, in the code's terms.  When status and skills are each missing from
    the request or empty where the request carries them (in the body, a
    cookie, a header, a route parameter or the query string: [check]
    reads them all), the response is 400 with the list of the errors
    recorded, which holds an error for [status] and an error for [skills]
    with their messages, and the store is left as it was.  When no
    location but the body carries the two fields, the list is the [status]
    error followed by the [skills] error, both for the body. *)
Theorem post_profile_missing_required
    (s : Store) (u : ObjectId) (req : Request ProfileBody.t) :
  missing_or_empty ProfileBody.status "status" req →
  missing_or_empty ProfileBody.skills "skills" req →
  post_profile u req s =
    (s, mkResponse 400 (JErrors (post_profile_checks req))) ∧
  (∃ e, e ∈ post_profile_checks req ∧
        param e = "status" ∧ msg e = "Status is required") ∧
  (∃ e, e ∈ post_profile_checks req ∧
        param e = "skills" ∧ msg e = "Skills is required") ∧
  (only_in_body "status" req → only_in_body "skills" req →
   post_profile_checks req =
     [mkFieldError "body" "status" "Status is required"
        (ProfileBody.status (req_body req));
      mkFieldError "body" "skills" "Skills is required"
        (ProfileBody.skills (req_body req))]).
Proof.
  intros Hstatus Hskills.
  destruct (rejected_has_error _ _ "Status is required" _ Hstatus)
    as (e1 & He1 & Hp1 & Hm1).
  destruct (rejected_has_error _ _ "Skills is required" _ Hskills)
    as (e2 & He2 & Hp2 & Hm2).
  split_and!.
  - apply post_profile_invalid. unfold post_profile_checks.
    intros [Hnil _]%app_eq_nil. rewrite Hnil in He1.
    by apply elem_of_nil in He1.
  - exists e1. split; [|done]. unfold post_profile_checks.
    apply elem_of_app. by left.
  - exists e2. split; [|done]. unfold post_profile_checks.
    apply elem_of_app. by right.
  - intros Hb1 Hb2. unfold post_profile_checks.
    rewrite !check_not_isEmpty_only_in_body by done.
    apply (check_not_isEmpty_rejects _ _ "Status is required") in Hstatus.
    apply (check_not_isEmpty_rejects _ _ "Skills is required") in Hskills.
    rewrite check_not_isEmpty_only_in_body in Hstatus, Hskills by done.
    unfold body_check in *.
    by destruct (isEmpty (ProfileBody.status (req_body req))),
      (isEmpty (ProfileBody.skills (req_body req))).
Qed.

(** C5 as stated fails at a request whose body has neither status nor
    skills and whose query string has both: the validator is satisfied by
    the query string, and the handler, which reads the body, answers 200
    and rewrites the caller's profile (here its social links are
    cleared). *)
Lemma post_profile_fields_in_query :
  isEmpty (ProfileBody.status (req_body ExRequest.in_query)) = true ∧
  isEmpty (ProfileBody.skills (req_body ExRequest.in_query)) = true ∧
  status (post_profile Ex.alice ExRequest.in_query Ex.store).2 = 200%nat ∧
  (Profile.social <$> query_profile Ex.alice Ex.store) =
    Some (Social.mk (Some (js "yt/alice")) (Some (js "tw/alice"))
            None None None) ∧
  (Profile.social <$>
     query_profile Ex.alice
       (post_profile Ex.alice ExRequest.in_query Ex.store).1) =
    Some (Social.mk None None None None None).
Proof. split_and!; reflexivity. Qed.

(** C10.  A POST that passes the checks leaves the caller with a profile
    whose [social] is exactly the object built from this request: a key is
    there, with the request's value, when the request gives it a non-empty
    value, and is absent otherwise, whatever was stored before.  The
    top-level optional fields of a profile that was there before are kept
    when the request omits them. *)
Theorem upsertProfile_replaces_social
    (s : Store) (u : ObjectId) (b : ProfileBody.t) :
  upsertProfile_checks b = [] →
  ∃ p',
    (upsertProfile u b s).2 = res_json (JProfile p') ∧
    query_profile u (upsertProfile u b s).1 = Some p' ∧
    Profile.social p' = build_social b ∧
    Social.youtube (Profile.social p') =
      (if truthy (ProfileBody.youtube b) then ProfileBody.youtube b else None) ∧
    Social.twitter (Profile.social p') =
      (if truthy (ProfileBody.twitter b) then ProfileBody.twitter b else None) ∧
    Social.linkedin (Profile.social p') =
      (if truthy (ProfileBody.linkedin b) then ProfileBody.linkedin b else None) ∧
    Social.facebook (Profile.social p') =
      (if truthy (ProfileBody.facebook b) then ProfileBody.facebook b else None) ∧
    Social.instagram (Profile.social p') =
      (if truthy (ProfileBody.instagram b)
       then ProfileBody.instagram b else None) ∧
    (∀ p, query_profile u s = Some p →
       (truthy (ProfileBody.company b) = false →
          Profile.company p' = Profile.company p) ∧
       (truthy (ProfileBody.website b) = false →
          Profile.website p' = Profile.website p) ∧
       (truthy (ProfileBody.location b) = false →
          Profile.location p' = Profile.location p) ∧
       (truthy (ProfileBody.bio b) = false →
          Profile.bio p' = Profile.bio p) ∧
       (truthy (ProfileBody.githubusername b) = false →
          Profile.githubusername p' = Profile.githubusername p)).
Proof.
  intros Hb.
  destruct (upsertProfile_stored s u b Hb) as (p' & Hres & Hq' & ->).
  eexists. split_and!; [done|done|..];
    try by destruct (query_profile u s).
  intros p ->. split_and!; intros H; simpl; by rewrite (assign_if_falsy _ H).
Qed.

(** ** The embedded sequences *)

Lemma indexOf_missing `{EqDecision A} (x : A) (l : list A) :
  x ∉ l → indexOf x l = (-1)%Z.
Proof.
  induction l as [|y l IH]; [done|]. simpl.
  intros [Hne Hl]%not_elem_of_cons.
  rewrite decide_False by done. by rewrite IH.
Qed.

Lemma indexOf_found `{EqDecision A} (x : A) (l : list A) :
  x ∈ l →
  (0 ≤ indexOf x l < Z.of_nat (length l))%Z ∧
  l !! Z.to_nat (indexOf x l) = Some x.
Proof.
  induction l as [|y l IH]; [by intros ?%elem_of_nil|]. simpl.
  intros Hx. destruct (decide (y = x)) as [->|Hne].
  - split; [lia|done].
  - apply elem_of_cons in Hx as [?|Hx]; [done|].
    destruct (IH Hx) as [Hrange Hlook].
    destruct (Z.ltb_spec (indexOf x l) 0); [lia|].
    split; [lia|].
    replace (Z.to_nat (indexOf x l + 1)) with (S (Z.to_nat (indexOf x l)))
      by lia.
    done.
Qed.

(** Splicing at -1 takes the last element away. *)
Lemma splice_minus_one {A} (l : list A) :
  splice (-1) 1 l = take (length l - 1) l.
Proof.
  unfold splice.
  destruct l as [|x l]; [done|].
  remember (x :: l) as k eqn:Hk.
  assert (1 ≤ length k)%nat by (subst k; simpl; lia).
  change ((-1 <? 0)%Z) with true. cbv iota.
  replace (Z.max (Z.of_nat (length k) + -1) 0)
    with (Z.of_nat (length k - 1)) by lia.
  replace (Z.min (Z.max 1 0) (Z.of_nat (length k) - Z.of_nat (length k - 1)))
    with 1%Z by lia.
  rewrite Nat2Z.id.
  replace (Z.to_nat (Z.of_nat (length k - 1) + 1)) with (length k) by lia.
  by rewrite drop_all, app_nil_r.
Qed.

(** Splicing at a position of the array deletes the element there. *)
Lemma splice_at {A} (i : nat) (l : list A) :
  (i < length l)%nat → splice (Z.of_nat i) 1 l = delete i l.
Proof.
  intros Hi. unfold splice.
  destruct (Z.ltb_spec (Z.of_nat i) 0); [lia|].
  replace (Z.min (Z.of_nat i) (Z.of_nat (length l))) with (Z.of_nat i) by lia.
  replace (Z.min (Z.max 1 0) (Z.of_nat (length l) - Z.of_nat i)) with 1%Z
    by lia.
  rewrite Nat2Z.id. replace (Z.to_nat (Z.of_nat i + 1)) with (S i) by lia.
  by rewrite delete_take_drop.
Qed.

Lemma addExperience_found (s : Store) (u : ObjectId) (b : ExperienceBody.t)
    (oid : jsstring) (i : nat) (p : Profile.t) :
  addExperience_checks b = [] →
  find_index (by_user u) (profiles s) = Some i →
  profiles s !! i = Some p →
  let p' := Profile.set_experiences (newExp oid b :: Profile.experiences p) p in
  addExperience u b oid s =
    (set_profiles (<[i := p']> (profiles s)) s, res_json (JProfile p')).
Proof.
  intros Hb Hi Hp. rewrite addExperience_unfold; cbv zeta. rewrite Hb. simpl.
  unfold try_catch, mbind, M_bind, Profile_findOne, gets. simpl.
  by rewrite Hi; simpl; rewrite Hp.
Qed.

Lemma addEducation_found (s : Store) (u : ObjectId) (b : EducationBody.t)
    (oid : jsstring) (i : nat) (p : Profile.t) :
  addEducation_checks b = [] →
  find_index (by_user u) (profiles s) = Some i →
  profiles s !! i = Some p →
  let p' := Profile.set_education (newEdu oid b :: Profile.education p) p in
  addEducation u b oid s =
    (set_profiles (<[i := p']> (profiles s)) s, res_json (JProfile p')).
Proof.
  intros Hb Hi Hp. rewrite addEducation_unfold; cbv zeta. rewrite Hb. simpl.
  unfold try_catch, mbind, M_bind, Profile_findOne, gets. simpl.
  by rewrite Hi; simpl; rewrite Hp.
Qed.

Lemma removeExperience_found (s : Store) (u : ObjectId) (exp_id : jsstring)
    (i : nat) (p : Profile.t) :
  find_index (by_user u) (profiles s) = Some i →
  profiles s !! i = Some p →
  let p' :=
    Profile.set_experiences
      (splice (indexOf exp_id (Experience.id <$> Profile.experiences p)) 1
         (Profile.experiences p)) p in
  removeExperience u exp_id s =
    (set_profiles (<[i := p']> (profiles s)) s, res_json (JProfile p')).
Proof.
  intros Hi Hp. unfold removeExperience.
  unfold try_catch, mbind, M_bind, Profile_findOne, gets. simpl.
  by rewrite Hi; simpl; rewrite Hp.
Qed.

Lemma removeEducation_found (s : Store) (u : ObjectId) (edu_id : jsstring)
    (i : nat) (p : Profile.t) :
  find_index (by_user u) (profiles s) = Some i →
  profiles s !! i = Some p →
  let p' :=
    Profile.set_education
      (splice (indexOf edu_id (Education.id <$> Profile.education p)) 1
         (Profile.education p)) p in
  removeEducation u edu_id s =
    (set_profiles (<[i := p']> (profiles s)) s, res_json (JProfile p')).
Proof.
  intros Hi Hp. unfold removeEducation.
  unfold try_catch, mbind, M_bind, Profile_findOne, gets. simpl.
  by rewrite Hi; simpl; rewrite Hp.
Qed.

(** A handler that finds no profile reads a property of [null]: it answers
    500 and writes nothing. *)
Lemma no_profile_500 (s : Store) (u : ObjectId) :
  find_index (by_user u) (profiles s) = None →
  (∀ b oid, (addExperience u b oid s).1 = s) ∧
  (∀ b oid, (addEducation u b oid s).1 = s) ∧
  (∀ x, removeExperience u x s = (s, res_status_send 500 "Server error!")) ∧
  (∀ x, removeEducation u x s = (s, res_status_send 500 "Server error!")).
Proof.
  intros Hi. split_and!.
  - intros b oid. rewrite addExperience_unfold; cbv zeta.
    destruct (negb _); [done|].
    unfold try_catch, mbind, M_bind, Profile_findOne, gets. simpl.
    by rewrite Hi.
  - intros b oid. rewrite addEducation_unfold; cbv zeta.
    destruct (negb _); [done|].
    unfold try_catch, mbind, M_bind, Profile_findOne, gets. simpl.
    by rewrite Hi.
  - intros x. unfold removeExperience.
    unfold try_catch, mbind, M_bind, Profile_findOne, gets. simpl.
    by rewrite Hi.
  - intros x. unfold removeEducation.
    unfold try_catch, mbind, M_bind, Profile_findOne, gets. simpl.
    by rewrite Hi.
Qed.

(** Rewriting a profile in place, owner unchanged, keeps it the answer to
    the owner's query. *)
Lemma query_profile_insert (s : Store) (u : ObjectId) (i : nat)
    (p' : Profile.t) :
  find_index (by_user u) (profiles s) = Some i →
  Profile.user p' = u →
  query_profile u (set_profiles (<[i := p']> (profiles s)) s) = Some p'.
Proof.
  intros Hi Hu. apply query_profile_Some. exists i. simpl.
  destruct (find_index_Some _ _ _ Hi) as (x & Hx & _).
  split.
  - apply find_index_insert; [done|by apply by_user_true].
  - apply list_lookup_insert_eq. by eapply lookup_lt_Some.
Qed.

Lemma find_index_after_insert (s : Store) (u : ObjectId) (i : nat)
    (p' : Profile.t) :
  find_index (by_user u) (profiles s) = Some i →
  Profile.user p' = u →
  find_index (by_user u) (<[i := p']> (profiles s)) = Some i ∧
  <[i := p']> (profiles s) !! i = Some p'.
Proof.
  intros Hi Hu.
  destruct (find_index_Some _ _ _ Hi) as (x & Hx & _).
  split.
  - apply find_index_insert; [done|by apply by_user_true].
  - apply list_lookup_insert_eq. by eapply lookup_lt_Some.
Qed.

(** C6.  With a profile in place and two requests that pass the checks,
    adding E1 and then E2 leaves the sequence [E2; E1] followed by what was
    there before, for the experiences and for the education alike; the
    second response carries the profile so stored. *)
Theorem add_prepends
    (s : Store) (u : ObjectId) (p : Profile.t)
    (E1 E2 : ExperienceBody.t) (D1 D2 : EducationBody.t)
    (oid1 oid2 : jsstring) :
  query_profile u s = Some p →
  addExperience_checks E1 = [] → addExperience_checks E2 = [] →
  addEducation_checks D1 = [] → addEducation_checks D2 = [] →
  (∃ p',
     let s1 := (addExperience u E1 oid1 s).1 in
     (addExperience u E2 oid2 s1).2 = res_json (JProfile p') ∧
     query_profile u (addExperience u E2 oid2 s1).1 = Some p' ∧
     Profile.experiences p' =
       newExp oid2 E2 :: newExp oid1 E1 :: Profile.experiences p) ∧
  (∃ p',
     let s1 := (addEducation u D1 oid1 s).1 in
     (addEducation u D2 oid2 s1).2 = res_json (JProfile p') ∧
     query_profile u (addEducation u D2 oid2 s1).1 = Some p' ∧
     Profile.education p' =
       newEdu oid2 D2 :: newEdu oid1 D1 :: Profile.education p).
Proof.
  intros Hq HE1 HE2 HD1 HD2.
  pose proof Hq as (i & Hi & Hp)%query_profile_Some.
  pose proof (query_profile_user _ _ _ Hq) as Hu.
  split.
  - rewrite (addExperience_found s u E1 oid1 i p HE1 Hi Hp). simpl.
    set (p1 := Profile.set_experiences _ p).
    destruct (find_index_after_insert s u i p1 Hi Hu) as [Hi1 Hp1].
    rewrite (addExperience_found (set_profiles (<[i := p1]> (profiles s)) s)
               u E2 oid2 i p1 HE2 Hi1 Hp1). simpl.
    eexists. split_and!; [done| |done].
    by apply (query_profile_insert (set_profiles _ s) u i).
  - rewrite (addEducation_found s u D1 oid1 i p HD1 Hi Hp). simpl.
    set (p1 := Profile.set_education _ p).
    destruct (find_index_after_insert s u i p1 Hi Hu) as [Hi1 Hp1].
    rewrite (addEducation_found (set_profiles (<[i := p1]> (profiles s)) s)
               u D2 oid2 i p1 HD2 Hi1 Hp1). simpl.
    eexists. split_and!; [done| |done].
    by apply (query_profile_insert (set_profiles _ s) u i).
Qed.

(** ** Removing an entry *)

(** An identifier that is in the sequence: its first entry goes. *)
Lemma removeExperience_present (s : Store) (u : ObjectId) (p : Profile.t)
    (exp_id : jsstring) :
  query_profile u s = Some p →
  exp_id ∈ Experience.id <$> Profile.experiences p →
  ∃ k e p',
    Profile.experiences p !! k = Some e ∧ Experience.id e = exp_id ∧
    (removeExperience u exp_id s).2 = res_json (JProfile p') ∧
    query_profile u (removeExperience u exp_id s).1 = Some p' ∧
    Profile.experiences p' = delete k (Profile.experiences p).
Proof.
  intros Hq Hin.
  pose proof Hq as (i & Hi & Hp)%query_profile_Some.
  pose proof (query_profile_user _ _ _ Hq) as Hu.
  rewrite (removeExperience_found s u exp_id i p Hi Hp). simpl.
  destruct (indexOf_found _ _ Hin) as [Hrange Hlook].
  set (k := Z.to_nat (indexOf exp_id (Experience.id <$> Profile.experiences p)))
    in *.
  rewrite list_lookup_fmap in Hlook.
  destruct (Profile.experiences p !! k) as [e|] eqn:He; [|done].
  injection Hlook as Hid.
  exists k, e. eexists. split_and!; [done|done|done| |].
  - by apply query_profile_insert.
  - simpl. replace (indexOf _ _) with (Z.of_nat k) by (unfold k; lia).
    apply splice_at. by eapply lookup_lt_Some.
Qed.

(** An identifier that is not in the sequence: [indexOf] gives -1, and
    [splice(-1, 1)] takes the last entry away.  The response is the 200 of
    a removal. *)
Lemma removeExperience_missing (s : Store) (u : ObjectId) (p : Profile.t)
    (exp_id : jsstring) :
  query_profile u s = Some p →
  exp_id ∉ Experience.id <$> Profile.experiences p →
  ∃ p',
    (removeExperience u exp_id s).2 = res_json (JProfile p') ∧
    query_profile u (removeExperience u exp_id s).1 = Some p' ∧
    Profile.experiences p' =
      take (length (Profile.experiences p) - 1) (Profile.experiences p).
Proof.
  intros Hq Hin.
  pose proof Hq as (i & Hi & Hp)%query_profile_Some.
  pose proof (query_profile_user _ _ _ Hq) as Hu.
  rewrite (removeExperience_found s u exp_id i p Hi Hp). simpl.
  eexists. split_and!; [done| |].
  - by apply query_profile_insert.
  - simpl. rewrite (indexOf_missing _ _ Hin). apply splice_minus_one.
Qed.

Lemma removeEducation_missing (s : Store) (u : ObjectId) (p : Profile.t)
    (edu_id : jsstring) :
  query_profile u s = Some p →
  edu_id ∉ Education.id <$> Profile.education p →
  ∃ p',
    (removeEducation u edu_id s).2 = res_json (JProfile p') ∧
    query_profile u (removeEducation u edu_id s).1 = Some p' ∧
    Profile.education p' =
      take (length (Profile.education p) - 1) (Profile.education p).
Proof.
  intros Hq Hin.
  pose proof Hq as (i & Hi & Hp)%query_profile_Some.
  pose proof (query_profile_user _ _ _ Hq) as Hu.
  rewrite (removeEducation_found s u edu_id i p Hi Hp). simpl.
  eexists. split_and!; [done| |].
  - by apply query_profile_insert.
  - simpl. rewrite (indexOf_missing _ _ Hin). apply splice_minus_one.
Qed.

(** C3.  The code at an identifier that is in neither sequence: the two
    experiences [exp_a; exp_b] become [exp_a], the two education entries
    [edu_a; edu_b] become [edu_a], and both responses are 200 with the
    shortened profile.  No error is reported, but the sequence is not left
    unchanged: its last entry is gone. *)
Theorem remove_missing_drops_last :
  (js "zz" ∉ Experience.id <$> Profile.experiences Ex.profile) ∧
  (js "zz" ∉ Education.id <$> Profile.education Ex.profile) ∧
  status (removeExperience Ex.alice (js "zz") Ex.store).2 = 200%nat ∧
  (Profile.experiences <$>
     query_profile Ex.alice (removeExperience Ex.alice (js "zz") Ex.store).1)
    = Some [Ex.exp_a] ∧
  status (removeEducation Ex.alice (js "zz") Ex.store).2 = 200%nat ∧
  (Profile.education <$>
     query_profile Ex.alice (removeEducation Ex.alice (js "zz") Ex.store).1)
    = Some [Ex.edu_a].
Proof.
  split_and!; [compute_done|compute_done|reflexivity..].
Qed.

(** ** [GET /user/:user_id] *)

Lemma castObjectId_error (user_id : jsstring) (e : Exn) :
  castObjectId user_id = inl e → e = CastError "ObjectId".
Proof.
  unfold castObjectId. repeat case_match; congruence.
Qed.

(** A malformed id: the cast fails and the catch clause answers 400. *)
Lemma getProfileByUser_malformed (s : Store) (user_id : jsstring) (e : Exn) :
  castObjectId user_id = inl e →
  getProfileByUser user_id s =
    (s, res_status_json 400 (JMsg "Profile not found!")).
Proof.
  intros He. pose proof (castObjectId_error _ _ He) as ->.
  unfold getProfileByUser, try_catch, mbind, M_bind, cast_filter.
  by rewrite He.
Qed.

(** A well-formed id that no profile names: [findOne] gives [null], the
    read of [length] throws, the error has no [kind], and the answer is
    500. *)
Lemma getProfileByUser_absent (s : Store) (user_id : jsstring) (u : ObjectId) :
  castObjectId user_id = inr u →
  query_profile u s = None →
  getProfileByUser user_id s = (s, res_status_send 500 "Server Error!").
Proof.
  intros Hu Hq%query_profile_None.
  unfold getProfileByUser, try_catch, mbind, M_bind, cast_filter.
  rewrite Hu. simpl. unfold Profile_findOne, gets. by rewrite Hq.
Qed.

(** X20.  An identifier that casts to a user with a profile: 200 with
    that profile joined with the user's record, and no write. *)
Lemma getProfileByUser_found (s : Store) (user_id : jsstring) (u : ObjectId)
    (p : Profile.t) :
  castObjectId user_id = inr u →
  query_profile u s = Some p →
  getProfileByUser user_id s =
    (s, res_json (JPopulated (p, users s !! Profile.user p))).
Proof.
  intros Hu (i & Hi & Hp)%query_profile_Some.
  unfold getProfileByUser, try_catch, mbind, M_bind, cast_filter.
  rewrite Hu. simpl. unfold Profile_findOne, gets. rewrite Hi. simpl.
  by rewrite Hp.
Qed.

Lemma filter_by_user_nil (u : ObjectId) (l : list Profile.t) :
  find_index (by_user u) l = None →
  filter (λ p, Profile.user p = u) l = [].
Proof.
  intros Hi. rewrite find_index_None in Hi.
  induction l as [|p l IH]; [done|].
  rewrite filter_cons_False.
  - apply IH. intros x Hx. apply Hi. by right.
  - intros Hp%by_user_true. rewrite Hi in Hp; [done|by left].
Qed.

(** The handler of [src/routes/api/profile.js] answers 400 in both
    cases. *)
Lemma RoutesApiProfile_getProfileByUser_not_linked
    (s : Store) (user_id : jsstring) :
  match castObjectId user_id with
  | inr u => query_profile u s = None
  | inl _ => True
  end →
  RoutesApiProfile.getProfileByUser user_id s =
    (s, res_status_json 400 (JMsg "Profile not found!")).
Proof.
  unfold RoutesApiProfile.getProfileByUser, try_catch, mbind, M_bind,
    cast_filter.
  destruct (castObjectId user_id) as [e|u] eqn:Hu.
  - intros _. by rewrite (castObjectId_error _ _ Hu).
  - intros Hq%query_profile_None. simpl.
    unfold Profile_find, gets. by rewrite filter_by_user_nil.
Qed.

(** X21.  [GET /user/:user_id] of the second router of
    [src/routes/api/profile.js] answers 500 [Server Error!] to every
    request, found, absent or malformed, and writes nothing. *)
Lemma RoutesApiProfile_getProfileByUser_second_500
    (s : Store) (user_id : jsstring) :
  RoutesApiProfile.getProfileByUser_second user_id s =
    (s, res_status_send 500 "Server Error!").
Proof.
  unfold RoutesApiProfile.getProfileByUser_second, try_catch, mbind, M_bind,
    cast_filter.
  destruct (castObjectId user_id) as [e|u]; [done|]. simpl.
  unfold Profile_find, gets.
  assert (H : ∀ l, ∃ l', populate_all l s = (s, inr l')).
  { induction l as [|p l [l' IH]]; simpl; [by eexists|].
    unfold mbind, M_bind, populate, gets. rewrite IH. by eexists. }
  destruct (H (filter (λ p, Profile.user p = u) (profiles s))) as [l' ->].
  done.
Qed.

(** C7.  The code at a well-formed identifier that no profile names: the
    complete router answers 500 with the text [Server Error!], where the
    claim has 400 with a not-found message; the handler of
    [src/routes/api/profile.js] answers that 400 on the same request, and
    both answer it on a malformed identifier. *)
Theorem getProfileByUser_absent_is_500 :
  (∃ u, castObjectId Ex.absent_id = inr u ∧ query_profile u Ex.store = None) ∧
  getProfileByUser Ex.absent_id Ex.store =
    (Ex.store, mkResponse 500 (Text "Server Error!")) ∧
  RoutesApiProfile.getProfileByUser Ex.absent_id Ex.store =
    (Ex.store, mkResponse 400 (JMsg "Profile not found!")) ∧
  getProfileByUser (js "not-an-id") Ex.store =
    (Ex.store, mkResponse 400 (JMsg "Profile not found!")) ∧
  RoutesApiProfile.getProfileByUser (js "not-an-id") Ex.store =
    (Ex.store, mkResponse 400 (JMsg "Profile not found!")).
Proof.
  split_and!.
  - eexists. split; [reflexivity|reflexivity].
  - by eapply getProfileByUser_absent.
  - by apply RoutesApiProfile_getProfileByUser_not_linked.
  - by eapply getProfileByUser_malformed.
  - by apply RoutesApiProfile_getProfileByUser_not_linked.
Qed.

(** ** [DELETE /] *)

Lemma NoDup_delete_lookup {A} (l : list A) (i : nat) (x : A) :
  NoDup l → l !! i = Some x → x ∉ delete i l.
Proof.
  intros Hnd Hx.
  rewrite <- (take_drop_middle l i x Hx) in Hnd.
  rewrite delete_take_drop.
  apply NoDup_app in Hnd as (_ & Hl & Hr%NoDup_cons).
  rewrite elem_of_app. intros [Hin|Hin].
  - apply (Hl x Hin). by left.
  - by destruct Hr.
Qed.

Lemma deleteOwnProfile_run (s : Store) (u : ObjectId) :
  deleteOwnProfile u s =
    (mkStore
       (match find_index (by_user u) (profiles s) with
        | Some i => delete i (profiles s)
        | None => profiles s
        end)
       (delete u (users s))
       (filter (λ p, Post.user p ≠ u) (posts s)),
     res_json (JMsg "User removed!")).
Proof.
  unfold deleteOwnProfile, try_catch, mbind, M_bind, Post_deleteMany,
    Profile_findOneAndRemove, User_findOneAndRemove, modify. simpl.
  by destruct (find_index (by_user u) (profiles s)).
Qed.

(** X19.  The complete router, on a store with at most one profile per
    user: afterwards the user has no post, no profile and no record, and
    [GET /me] answers not-found. *)
Lemma deleteOwnProfile_cascade (s : Store) (u : ObjectId) :
  one_profile_per_user s →
  let s' := (deleteOwnProfile u s).1 in
  (deleteOwnProfile u s).2 = res_json (JMsg "User removed!") ∧
  filter (λ p, Post.user p = u) (posts s') = [] ∧
  query_profile u s' = None ∧
  users s' !! u = None ∧
  getOwnProfile u s' =
    (s', res_status_json 400 (JMsg "There is no profile for this user!")).
Proof.
  intros Hone. rewrite deleteOwnProfile_run. simpl.
  assert (Hgone : find_index (by_user u)
            (match find_index (by_user u) (profiles s) with
             | Some i => delete i (profiles s)
             | None => profiles s
             end) = None).
  { destruct (find_index (by_user u) (profiles s)) as [i|] eqn:Hi; [|done].
    destruct (find_index_Some _ _ _ Hi) as (p & Hp & Hpu%by_user_true & _).
    apply find_index_None. intros x Hx.
    destruct (by_user u x) eqn:Hxu; [|done]. apply by_user_true in Hxu.
    exfalso. eapply (NoDup_delete_lookup _ i u Hone).
    - by rewrite list_lookup_fmap, Hp; simpl; rewrite Hpu.
    - rewrite <- list_fmap_delete. apply list_elem_of_fmap. eauto.
  }
  split_and!; [done| | |apply lookup_delete_eq|].
  - induction (posts s) as [|q l IH]; [done|].
    destruct (decide (Post.user q = u)) as [Hq|Hq].
    + by rewrite (filter_cons_False _ q) by (intros ?; done).
    + rewrite (filter_cons_True _ q) by done.
      by rewrite filter_cons_False.
  - by apply query_profile_None.
  - unfold getOwnProfile, try_catch, mbind, M_bind, Profile_findOne, gets.
    simpl. by rewrite Hgone.
Qed.

(** The handler of [src/routes/api/profile.js] leaves every post where it
    is. *)
Lemma RoutesApiProfile_deleteOwnProfile_posts (s : Store) (u : ObjectId) :
  posts (RoutesApiProfile.deleteOwnProfile u s).1 = posts s ∧
  (RoutesApiProfile.deleteOwnProfile u s).2 = res_json (JMsg "User removed!").
Proof.
  unfold RoutesApiProfile.deleteOwnProfile, try_catch, mbind, M_bind,
    Profile_findOneAndRemove, User_findOneAndRemove, modify. simpl.
  by destruct (find_index (by_user u) (profiles s)).
Qed.

(** C2.  The code at a user with a profile and one post: the handler of
    [src/routes/api/profile.js] answers 200 [User removed!] with the profile
    and the user record gone and the post still stored, where the claim
    has the posts removed first; the complete router, on the same request,
    removes the post as well. *)
Theorem RoutesApiProfile_delete_keeps_posts :
  let s' := (RoutesApiProfile.deleteOwnProfile Ex.alice Ex.store).1 in
  (RoutesApiProfile.deleteOwnProfile Ex.alice Ex.store).2
    = mkResponse 200 (JMsg "User removed!") ∧
  query_profile Ex.alice s' = None ∧
  users s' !! Ex.alice = None ∧
  filter (λ p, Post.user p = Ex.alice) (posts s') = [Ex.post] ∧
  posts (deleteOwnProfile Ex.alice Ex.store).1 = [].
Proof.
  split_and!; reflexivity.
Qed.

(** ** One profile per user *)

Lemma owners_insert (l : list Profile.t) (i : nat) (p p' : Profile.t) :
  l !! i = Some p → Profile.user p' = Profile.user p →
  Profile.user <$> <[i := p']> l = Profile.user <$> l.
Proof.
  intros Hp Hu. rewrite list_fmap_insert. apply list_insert_id.
  by rewrite list_lookup_fmap, Hp, Hu.
Qed.

Lemma one_profile_per_user_insert (s : Store) (i : nat) (p p' : Profile.t) :
  profiles s !! i = Some p → Profile.user p' = Profile.user p →
  one_profile_per_user s →
  one_profile_per_user (set_profiles (<[i := p']> (profiles s)) s).
Proof.
  unfold one_profile_per_user. simpl. intros Hp Hu.
  by rewrite (owners_insert _ _ _ _ Hp Hu).
Qed.

Lemma upsertProfile_one_profile_per_user (s : Store) (u : ObjectId)
    (b : ProfileBody.t) :
  one_profile_per_user s → one_profile_per_user (upsertProfile u b s).1.
Proof.
  intros Hone.
  destruct (decide (upsertProfile_checks b = [])) as [Hb|Hb];
    [|by rewrite upsertProfile_invalid].
  destruct (find_index (by_user u) (profiles s)) as [i|] eqn:Hi.
  - destruct (find_index_Some _ _ _ Hi) as (p & Hp & Hpu%by_user_true & _).
    rewrite (upsertProfile_update s u b i p Hb Hi Hp). simpl.
    by apply (one_profile_per_user_insert s i p).
  - rewrite (upsertProfile_create s u b Hb Hi).
    unfold one_profile_per_user in *. simpl. rewrite fmap_snoc.
    apply NoDup_app. split_and!; [done| |apply NoDup_singleton].
    intros x Hx ->%list_elem_of_singleton. simpl in Hx.
    apply list_elem_of_fmap in Hx as (p & Hpu & Hp).
    rewrite find_index_None in Hi. specialize (Hi p Hp).
    symmetry in Hpu. apply by_user_true in Hpu. congruence.
Qed.

Lemma addExperience_one_profile_per_user (s : Store) (u : ObjectId)
    (b : ExperienceBody.t) (oid : jsstring) :
  one_profile_per_user s → one_profile_per_user (addExperience u b oid s).1.
Proof.
  intros Hone.
  destruct (find_index (by_user u) (profiles s)) as [i|] eqn:Hi.
  - destruct (find_index_Some _ _ _ Hi) as (p & Hp & _).
    destruct (decide (addExperience_checks b = [])) as [Hb|Hb].
    + rewrite (addExperience_found s u b oid i p Hb Hi Hp). simpl.
      by apply (one_profile_per_user_insert s i p).
    + rewrite addExperience_unfold; cbv zeta. by rewrite bool_decide_eq_false_2.
  - destruct (no_profile_500 s u Hi) as (H & _). by rewrite H.
Qed.

Lemma addEducation_one_profile_per_user (s : Store) (u : ObjectId)
    (b : EducationBody.t) (oid : jsstring) :
  one_profile_per_user s → one_profile_per_user (addEducation u b oid s).1.
Proof.
  intros Hone.
  destruct (find_index (by_user u) (profiles s)) as [i|] eqn:Hi.
  - destruct (find_index_Some _ _ _ Hi) as (p & Hp & _).
    destruct (decide (addEducation_checks b = [])) as [Hb|Hb].
    + rewrite (addEducation_found s u b oid i p Hb Hi Hp). simpl.
      by apply (one_profile_per_user_insert s i p).
    + rewrite addEducation_unfold; cbv zeta. by rewrite bool_decide_eq_false_2.
  - destruct (no_profile_500 s u Hi) as (_ & H & _). by rewrite H.
Qed.

Lemma removeExperience_one_profile_per_user (s : Store) (u : ObjectId)
    (exp_id : jsstring) :
  one_profile_per_user s → one_profile_per_user (removeExperience u exp_id s).1.
Proof.
  intros Hone.
  destruct (find_index (by_user u) (profiles s)) as [i|] eqn:Hi.
  - destruct (find_index_Some _ _ _ Hi) as (p & Hp & _).
    rewrite (removeExperience_found s u exp_id i p Hi Hp). simpl.
    by apply (one_profile_per_user_insert s i p).
  - destruct (no_profile_500 s u Hi) as (_ & _ & H & _). by rewrite H.
Qed.

Lemma removeEducation_one_profile_per_user (s : Store) (u : ObjectId)
    (edu_id : jsstring) :
  one_profile_per_user s → one_profile_per_user (removeEducation u edu_id s).1.
Proof.
  intros Hone.
  destruct (find_index (by_user u) (profiles s)) as [i|] eqn:Hi.
  - destruct (find_index_Some _ _ _ Hi) as (p & Hp & _).
    rewrite (removeEducation_found s u edu_id i p Hi Hp). simpl.
    by apply (one_profile_per_user_insert s i p).
  - destruct (no_profile_500 s u Hi) as (_ & _ & _ & H). by rewrite H.
Qed.

Lemma deleteOwnProfile_one_profile_per_user (s : Store) (u : ObjectId) :
  one_profile_per_user s → one_profile_per_user (deleteOwnProfile u s).1.
Proof.
  intros Hone. rewrite deleteOwnProfile_run.
  unfold one_profile_per_user in *. simpl.
  destruct (find_index (by_user u) (profiles s)); [|done].
  rewrite list_fmap_delete.
  eapply sublist_NoDup; [done|]. apply sublist_delete.
Qed.

Lemma step_one_profile_per_user (o : Op) (s : Store) :
  one_profile_per_user s → one_profile_per_user (step o s).1.
Proof.
  destruct o; simpl.
  - apply upsertProfile_one_profile_per_user.
  - apply addExperience_one_profile_per_user.
  - apply addEducation_one_profile_per_user.
  - apply removeExperience_one_profile_per_user.
  - apply removeEducation_one_profile_per_user.
  - apply deleteOwnProfile_one_profile_per_user.
Qed.

(** C9.  From a store in which no two profiles name the same user, every
    sequence of upsertProfile, addExperience, addEducation,
    removeExperience, removeEducation and deleteOwnProfile calls, run one
    after the other, ends in such a store: no user is named by two
    profiles, that is, the profiles a user's id selects are at most one. *)
Theorem run_one_profile_per_user (ops : list Op) (s : Store) :
  one_profile_per_user s →
  one_profile_per_user (run ops s) ∧
  ∀ u, (length (filter (λ p, Profile.user p = u) (profiles (run ops s))) ≤ 1)%nat.
Proof.
  intros Hone.
  assert (Hrun : one_profile_per_user (run ops s)).
  { revert s Hone. induction ops as [|o ops IH]; intros s Hone; [done|].
    simpl. apply IH. by apply step_one_profile_per_user. }
  split; [done|]. intros u.
  unfold one_profile_per_user in Hrun.
  induction (profiles (run ops s)) as [|p l IH]; [simpl; lia|].
  rewrite fmap_cons in Hrun. apply NoDup_cons in Hrun as [Hp Hl].
  destruct (decide (Profile.user p = u)) as [Hu|Hu].
  - rewrite filter_cons_True by done. simpl.
    assert (filter (λ p, Profile.user p = u) l = []) as ->; [|simpl; lia].
    apply filter_by_user_nil, find_index_None. intros x Hx.
    destruct (by_user u x) eqn:Hxu; [|done]. apply by_user_true in Hxu.
    exfalso. apply Hp. apply list_elem_of_fmap. exists x.
    split; [congruence|done].
  - rewrite filter_cons_False by done. by apply IH.
Qed.

(** ** [GET /github/:username] *)

Lemma prepend_app (pre : jsstring) (r : Exn + jsstring) (tail : jsstring) :
  match prepend pre r with
  | inr a => inr (a ++ tail)
  | inl e => inl e
  end = prepend pre (match r with
                     | inr a => inr (a ++ tail)
                     | inl e => inl e
                     end).
Proof. destruct r; simpl; [done|]. by rewrite app_assoc. Qed.

Lemma encodeURI_cons (c : N) (s' : jsstring) :
  encodeURI (c :: s') =
    if uriUnescaped c then prepend [c] (encodeURI s')
    else if isLowSurrogate c then inl URIError
    else if isHighSurrogate c then
      match s' with
      | c2 :: s'' =>
          if isLowSurrogate c2 then
            prepend (escaped ((c - 55296) * 1024 + (c2 - 56320) + 65536))
              (encodeURI s'')
          else inl URIError
      | [] => inl URIError
      end
    else prepend (escaped c) (encodeURI s').
Proof. done. Qed.

Lemma uriUnescaped_ascii (c : N) : uriUnescaped c = true → c < 128.
Proof.
  unfold uriUnescaped. rewrite !orb_true_iff, !andb_true_iff.
  rewrite !N.leb_le, bool_decide_eq_true.
  intros [[[?|?]|?]|Hin]; [lia..|].
  vm_compute in Hin.
  repeat (apply elem_of_cons in Hin as [->|Hin]; [lia|]).
  by apply elem_of_nil in Hin.
Qed.

Lemma uriUnescaped_not_low (c : N) :
  uriUnescaped c = true → isLowSurrogate c = false.
Proof.
  intros H%uriUnescaped_ascii. unfold isLowSurrogate.
  apply andb_false_iff. left. apply N.leb_gt. lia.
Qed.

(** Text made of unescaped characters encodes to itself. *)
Lemma encodeURI_unescaped (t : jsstring) :
  Forall (λ c, uriUnescaped c = true) t → encodeURI t = inr t.
Proof.
  induction 1 as [|c t Hc _ IH]; [done|].
  by rewrite encodeURI_cons, Hc, IH.
Qed.

Lemma encodeURI_unescaped_app (pre s : jsstring) :
  Forall (λ c, uriUnescaped c = true) pre →
  encodeURI (pre ++ s) = prepend pre (encodeURI s).
Proof.
  induction 1 as [|c t Hc _ IH]; simpl app.
  - by destruct (encodeURI s).
  - rewrite encodeURI_cons, Hc, IH. by destruct (encodeURI s).
Qed.

(** Unescaped text after a string does not change how the string
    encodes. *)
Lemma encodeURI_app_unescaped (a tail : jsstring) :
  Forall (λ c, uriUnescaped c = true) tail →
  encodeURI (a ++ tail) =
    match encodeURI a with
    | inr a' => inr (a' ++ tail)
    | inl e => inl e
    end.
Proof.
  intros Htail.
  assert (H : ∀ n a, (length a < n)%nat →
    encodeURI (a ++ tail) =
      match encodeURI a with
      | inr a' => inr (a' ++ tail)
      | inl e => inl e
      end); [|by apply (H (S (length a)) a); lia].
  induction n as [|n IH]; intros a' Hlen; [lia|].
  destruct a' as [|c a']; [by apply encodeURI_unescaped|].
  simpl in Hlen. simpl app. rewrite !encodeURI_cons.
  destruct (uriUnescaped c);
    [rewrite prepend_app; f_equal; apply IH; lia|].
  destruct (isLowSurrogate c); [done|].
  destruct (isHighSurrogate c);
    [|rewrite prepend_app; f_equal; apply IH; lia].
  destruct a' as [|c2 a'']; simpl app; cbv beta iota.
  - destruct Htail as [|c2 tail Hc2 _]; [done|].
    by rewrite (uriUnescaped_not_low _ Hc2).
  - destruct (isLowSurrogate c2); [|done].
    rewrite prepend_app. f_equal. apply IH. simpl in Hlen. lia.
Qed.

Lemma hexChar_not_delimiter (d : N) : hexChar d ≠ 63 ∧ hexChar d ≠ 35.
Proof. unfold hexChar. destruct (N.ltb_spec d 10); lia. Qed.

Lemma escaped_not_delimiter (v c : N) :
  c ∈ escaped v → c ≠ 63 ∧ c ≠ 35.
Proof.
  unfold escaped. intros (l & Hc & Hl)%list_elem_of_join.
  apply list_elem_of_fmap in Hl as (byte & -> & _).
  unfold percent in Hc.
  repeat (apply elem_of_cons in Hc as [->|Hc];
          [first [apply hexChar_not_delimiter | lia]|]).
  by apply elem_of_nil in Hc.
Qed.

(** Encoding brings in no [?] and no [#]. *)
Lemma encodeURI_delimiter (a a' : jsstring) (c : N) :
  encodeURI a = inr a' → c ∈ a' → c = 63 ∨ c = 35 → c ∈ a.
Proof.
  intros Ha Hc Hdelim.
  assert (H : ∀ n a a', (length a < n)%nat →
    encodeURI a = inr a' → c ∈ a' → c ∈ a);
    [|by apply (H (S (length a)) a a'); [lia|..]].
  clear a a' Ha Hc.
  induction n as [|n IH]; intros a a' Hlen; [lia|].
  destruct a as [|x a]; [by intros [= <-]|].
  simpl in Hlen. rewrite encodeURI_cons.
  assert (Hstep : ∀ pre r b,
    (length b < n)%nat → r = encodeURI b →
    (∀ y, y ∈ pre → y = c → y ∈ x :: a) → (∀ y, y ∈ b → y ∈ x :: a) →
    prepend pre r = inr a' → c ∈ a' → c ∈ x :: a).
  { intros pre r b Hb -> Hpre Hsub.
    destruct (encodeURI b) as [|b'] eqn:Hb'; [done|].
    intros [= <-] [Hc|Hc]%elem_of_app; [by apply (Hpre c)|].
    apply Hsub. by apply (IH b b'). }
  destruct (uriUnescaped x).
  { apply (Hstep [x] _ a); [lia|done| |by right].
    intros y ->%list_elem_of_singleton _. by left. }
  destruct (isLowSurrogate x); [done|].
  destruct (isHighSurrogate x).
  - destruct a as [|c2 a'']; [done|].
    destruct (isLowSurrogate c2); [|done].
    apply (Hstep _ _ a''); [simpl in Hlen; lia|done| |by do 2 right].
    intros y Hy%escaped_not_delimiter ->. lia.
  - apply (Hstep _ _ a); [lia|done| |by right].
    intros y Hy%escaped_not_delimiter ->. lia.
Qed.

Lemma before_app_notin (c : N) (a b : jsstring) :
  c ∉ a → before c (a ++ b) = a ++ before c b.
Proof.
  induction a as [|x a IH]; [done|].
  intros [Hx Ha]%not_elem_of_cons. simpl.
  destruct (N.eqb_spec x c); [done|]. by rewrite IH.
Qed.

Lemma before_notin (c : N) (a : jsstring) : c ∉ a → before c a = a.
Proof.
  intros H. rewrite <- (app_nil_r a) at 1.
  by rewrite before_app_notin, app_nil_r.
Qed.

Lemma after_app_notin (c : N) (a b : jsstring) :
  c ∉ a → after c (a ++ b) = after c b.
Proof.
  induction a as [|x a IH]; [done|].
  intros [Hx Ha]%not_elem_of_cons. simpl.
  destruct (N.eqb_spec x c); [done|]. by rewrite IH.
Qed.

(** How the URI of the request encodes: the fixed text stays as written
    around the encoded user name. *)
Lemma encodeURI_repos_uri (username uri : jsstring) :
  encodeURI (repos_uri username) = inr uri →
  ∃ name, encodeURI username = inr name ∧
          uri = js "https://api.github.com/users/" ++ name ++
                js "/repos?per_page=5&sort=created:asc".
Proof.
  unfold repos_uri.
  rewrite encodeURI_unescaped_app
    by (apply Forall_forall; intros c Hc; vm_compute in Hc;
        repeat (apply elem_of_cons in Hc as [->|Hc]; [done|]);
        by apply elem_of_nil in Hc).
  rewrite encodeURI_app_unescaped
    by (apply Forall_forall; intros c Hc; vm_compute in Hc;
        repeat (apply elem_of_cons in Hc as [->|Hc]; [done|]);
        by apply elem_of_nil in Hc).
  destruct (encodeURI username) as [|name]; [done|].
  intros [= <-]. by exists name.
Qed.

Lemma repos_uri_query (username uri : jsstring) :
  encodeURI (repos_uri username) = inr uri →
  63 ∉ username → 35 ∉ username →
  query_params uri =
    [(js "per_page", Some (js "5")); (js "sort", Some (js "created:asc"))].
Proof.
  intros (name & Hname & ->)%encodeURI_repos_uri Hq Hh.
  assert (63 ∉ name) as Hq'
    by (intros H; apply Hq, (encodeURI_delimiter _ _ _ Hname H); auto).
  assert (35 ∉ name) as Hh'
    by (intros H; apply Hh, (encodeURI_delimiter _ _ _ Hname H); auto).
  unfold query_params, query_of.
  rewrite before_notin.
  - rewrite after_app_notin by compute_done.
    rewrite after_app_notin by done.
    reflexivity.
  - rewrite !not_elem_of_app. split_and!; [compute_done|done|compute_done].
Qed.

Lemma fetchGithubRepos_run (env : GithubEnv) (username : jsstring) (s : Store) :
  fetchGithubRepos env username s =
    (s, match encodeURI (repos_uri username), githubToken env with
        | inr uri, Some token =>
            match axios_get env
                    (mkGetRequest uri (js "node.js") (js "token " ++ token))
            with
            | inr data => mkResponse 200 (JData data)
            | inl _ => no_profile_found
            end
        | _, _ => no_profile_found
        end).
Proof.
  unfold fetchGithubRepos, try_catch, mbind, M_bind, lift.
  destruct (encodeURI (repos_uri username)) as [|uri]; [done|].
  destruct (githubToken env) as [token|]; [|done]. simpl.
  by destruct (axios_get env _).
Qed.

(** C8, in the code's terms.  The handler leaves the store alone and makes
    at most one GET: of the encoded
    [https://api.github.com/users/<username>/repos?per_page=5&sort=created:asc],
    with the header [Authorization: token <configured token>].  The
    response is 200 with the body received when that GET succeeds, and in
    every other case (the name cannot be encoded, no token is configured,
    the GET fails for whatever reason) the one 404
    [No Github profile found!!!!].  When the user name holds no [?] and no
    [#], the query of that URI is [per_page=5] and [sort=created:asc]: five
    per page, by creation time in the order written [asc]. *)
Theorem fetchGithubRepos_request_and_failure
    (env : GithubEnv) (username : jsstring) (s : Store) :
  fetchGithubRepos env username s =
    (s, match encodeURI (repos_uri username), githubToken env with
        | inr uri, Some token =>
            match axios_get env
                    (mkGetRequest uri (js "node.js") (js "token " ++ token))
            with
            | inr data => mkResponse 200 (JData data)
            | inl _ => mkResponse 404 (JMsg "No Github profile found!!!!")
            end
        | _, _ => mkResponse 404 (JMsg "No Github profile found!!!!")
        end) ∧
  (∀ uri,
     encodeURI (repos_uri username) = inr uri →
     63 ∉ username → 35 ∉ username →
     query_params uri =
       [(js "per_page", Some (js "5")); (js "sort", Some (js "created:asc"))]).
Proof.
  split; [apply fetchGithubRepos_run|].
  intros uri. apply repos_uri_query.
Qed.

(** C8 as stated fails at the user name [octocat]: the request made (shown
    by an environment that answers with the URI it is asked for) has the
    sort parameter [created:asc], so it does not ask for the most recently
    created repositories first. *)
Lemma fetchGithubRepos_not_newest_first :
  ∃ uri,
    fetchGithubRepos ExGithub.echo (js "octocat") Ex.store =
      (Ex.store, mkResponse 200 (JData uri)) ∧
    uri = js "https://api.github.com/users/octocat/repos?per_page=5&sort=created:asc" ∧
    query_param (js "sort") (query_params uri) = Some (js "created:asc") ∧
    asks_five_newest_created uri = false.
Proof.
  eexists. split_and!; [reflexivity|reflexivity|reflexivity|reflexivity].
Qed.

(** Whatever fails, the response is the same 404. *)
Lemma fetchGithubRepos_failure_generic
    (env : GithubEnv) (username : jsstring) (s : Store) :
  (fetchGithubRepos env username s).2 = no_profile_found ∨
  ∃ data, (fetchGithubRepos env username s).2 = mkResponse 200 (JData data).
Proof.
  rewrite fetchGithubRepos_run. cbn [snd].
  destruct (encodeURI (repos_uri username)); [by left|].
  destruct (githubToken env); [|by left].
  destruct (axios_get env _); [by left|]. right. by eexists.
Qed.

Lemma fetchGithubRepos_failures_alike :
  fetchGithubRepos (ExGithub.failing None) (js "octocat") Ex.store =
    (Ex.store, no_profile_found) ∧
  fetchGithubRepos (ExGithub.failing (Some 401%nat)) (js "octocat") Ex.store =
    (Ex.store, no_profile_found) ∧
  fetchGithubRepos (ExGithub.failing (Some 404%nat)) (js "octocat") Ex.store =
    (Ex.store, no_profile_found) ∧
  fetchGithubRepos (mkGithubEnv None (λ req, inr (uri req))) (js "octocat")
    Ex.store = (Ex.store, no_profile_found).
Proof. split_and!; reflexivity. Qed.

(** A user name with a [?] in it moves the query: what was to be the path
    becomes part of the first key. *)
Lemma repos_uri_query_delimiter :
  ∃ uri,
    encodeURI (repos_uri (js "a?b")) = inr uri ∧
    query_params uri =
      [(js "b/repos?per_page", Some (js "5"));
       (js "sort", Some (js "created:asc"))].
Proof. eexists. split; reflexivity. Qed.

(** ** The theorems at work on the example store *)

(** C1 on the example store: alice posts again with only status, skills
    and instagram; her one profile keeps company, website, bio and
    githubusername and takes the new status and skills. *)
Lemma upsertProfile_updates_in_place_witness :
  query_profile Ex.alice Ex.store = Some Ex.profile ∧
  upsertProfile_checks Ex.repost = [] ∧
  ∃ p',
    query_profile Ex.alice (upsertProfile Ex.alice Ex.repost Ex.store).1
      = Some p' ∧
    Profile.user <$> profiles (upsertProfile Ex.alice Ex.repost Ex.store).1
      = [Ex.alice] ∧
    Profile.company p' = Some (js "Acme") ∧
    Profile.website p' = Some (js "acme.example") ∧
    Profile.location p' = None ∧
    Profile.bio p' = Some (js "hello") ∧
    Profile.githubusername p' = Some (js "alice") ∧
    Profile.status p' = Some (js "Senior Developer") ∧
    Some (Profile.skills p') = Some [js "node"; js "react"; js "express"].
Proof.
  split; [reflexivity|]. split; [reflexivity|].
  destruct (upsertProfile_updates_in_place Ex.store Ex.alice Ex.repost
              Ex.profile eq_refl eq_refl)
    as (i & p' & _ & _ & Hq & Hown & Hc & Hw & Hl & Hb & Hg & _ & _ & _ &
        Hstatus & Hskills & _).
  exists p'. split; [exact Hq|]. split; [exact Hown|].
  rewrite (Hc eq_refl), (Hw eq_refl), (Hl eq_refl), (Hb eq_refl),
    (Hg eq_refl), Hstatus, Hskills.
  repeat split.
Defined.

(** C4 on the store without profiles: the input of the claim. *)
Lemma upsertProfile_create_skills_witness :
  query_profile Ex.alice Ex.fresh = None ∧
  ProfileBody.skills Ex.repost = Some (js "node, react , express") ∧
  upsertProfile_checks Ex.repost = [] ∧
  ∃ p,
    query_profile Ex.alice (upsertProfile Ex.alice Ex.repost Ex.fresh).1
      = Some p ∧
    Profile.skills p = [js "node"; js "react"; js "express"].
Proof.
  split; [reflexivity|]. split; [reflexivity|]. split; [reflexivity|].
  destruct (upsertProfile_create_skills Ex.fresh Ex.alice Ex.repost
              (js "node, react , express") eq_refl eq_refl eq_refl)
    as (p & _ & Hq & Hskills & _).
  exists p. split; [exact Hq|]. rewrite Hskills. reflexivity.
Defined.

(** C5 on a request with no status anywhere and with skills in the body
    and, empty, in the query string: the body answers for the missing
    status, the query string for the empty skills. *)
Lemma post_profile_missing_required_witness :
  missing_or_empty ProfileBody.status "status" ExRequest.empty_in_query ∧
  missing_or_empty ProfileBody.skills "skills" ExRequest.empty_in_query ∧
  post_profile Ex.alice ExRequest.empty_in_query Ex.store =
    (Ex.store,
     mkResponse 400
       (JErrors
          [mkFieldError "body" "status" "Status is required" None;
           mkFieldError "query" "skills" "Skills is required" (Some [])])).
Proof.
  assert (H1 : missing_or_empty ProfileBody.status "status"
                 ExRequest.empty_in_query) by compute_done.
  assert (H2 : missing_or_empty ProfileBody.skills "skills"
                 ExRequest.empty_in_query) by compute_done.
  split; [exact H1|]. split; [exact H2|].
  destruct (post_profile_missing_required Ex.store Ex.alice
              ExRequest.empty_in_query H1 H2) as (Hrun & _).
  rewrite Hrun. reflexivity.
Defined.

(** C10 on the example store: youtube and twitter were stored, the request
    gives instagram only, and instagram is all that is left. *)
Lemma upsertProfile_replaces_social_witness :
  upsertProfile_checks Ex.repost = [] ∧
  Profile.social Ex.profile =
    Social.mk (Some (js "yt/alice")) (Some (js "tw/alice")) None None None ∧
  ∃ p',
    query_profile Ex.alice (upsertProfile Ex.alice Ex.repost Ex.store).1
      = Some p' ∧
    Profile.social p' = Social.mk None None None None (Some (js "ig/alice")).
Proof.
  split; [reflexivity|]. split; [reflexivity|].
  destruct (upsertProfile_replaces_social Ex.store Ex.alice Ex.repost eq_refl)
    as (p' & _ & Hq & Hsocial & _).
  exists p'. split; [exact Hq|]. rewrite Hsocial. reflexivity.
Defined.

(** C6 on the example store, whose profile already has two entries of each
    kind. *)
Lemma add_prepends_witness :
  query_profile Ex.alice Ex.store = Some Ex.profile ∧
  addExperience_checks Ex.E1 = [] ∧ addExperience_checks Ex.E2 = [] ∧
  addEducation_checks Ex.D1 = [] ∧ addEducation_checks Ex.D2 = [] ∧
  (∃ p',
     query_profile Ex.alice
       (addExperience Ex.alice Ex.E2 (js "e2")
          (addExperience Ex.alice Ex.E1 (js "e1") Ex.store).1).1 = Some p' ∧
     Profile.experiences p' =
       [newExp (js "e2") Ex.E2; newExp (js "e1") Ex.E1; Ex.exp_a; Ex.exp_b]) ∧
  (∃ p',
     query_profile Ex.alice
       (addEducation Ex.alice Ex.D2 (js "e2")
          (addEducation Ex.alice Ex.D1 (js "e1") Ex.store).1).1 = Some p' ∧
     Profile.education p' =
       [newEdu (js "e2") Ex.D2; newEdu (js "e1") Ex.D1; Ex.edu_a; Ex.edu_b]).
Proof.
  split; [reflexivity|]. split; [reflexivity|]. split; [reflexivity|].
  split; [reflexivity|]. split; [reflexivity|].
  destruct (add_prepends Ex.store Ex.alice Ex.profile Ex.E1 Ex.E2 Ex.D1 Ex.D2
              (js "e1") (js "e2") eq_refl eq_refl eq_refl eq_refl eq_refl)
    as [(p' & _ & Hq & Hexp) (q' & _ & Hq' & Hedu)].
  split.
  - exists p'. split; [exact Hq|exact Hexp].
  - exists q'. split; [exact Hq'|exact Hedu].
Defined.

(** C9 on the example store and a sequence with updates, a deletion and
    creations for two users. *)
Lemma run_one_profile_per_user_witness :
  one_profile_per_user Ex.store ∧
  one_profile_per_user
    (run [OpUpsertProfile Ex.alice Ex.repost;
          OpAddExperience Ex.alice Ex.E1 (js "e1");
          OpRemoveEducation Ex.alice (js "zz");
          OpDeleteOwnProfile Ex.alice;
          OpUpsertProfile Ex.alice Ex.repost;
          OpUpsertProfile 2 Ex.repost;
          OpUpsertProfile Ex.alice Ex.repost]
       Ex.store).
Proof.
  assert (H : one_profile_per_user Ex.store) by apply NoDup_singleton.
  split; [exact H|].
  exact (proj1 (run_one_profile_per_user _ Ex.store H)).
Defined.

(** C8 at the user name [octocat], with a GET that fails with 401. *)
Lemma fetchGithubRepos_request_and_failure_witness :
  encodeURI (repos_uri (js "octocat")) =
    inr (js "https://api.github.com/users/octocat/repos?per_page=5&sort=created:asc") ∧
  (63 ∉ js "octocat") ∧ (35 ∉ js "octocat") ∧
  query_params
    (js "https://api.github.com/users/octocat/repos?per_page=5&sort=created:asc")
    = [(js "per_page", Some (js "5")); (js "sort", Some (js "created:asc"))] ∧
  fetchGithubRepos (ExGithub.failing (Some 401%nat)) (js "octocat") Ex.store =
    (Ex.store, mkResponse 404 (JMsg "No Github profile found!!!!")).
Proof.
  assert (H63 : 63 ∉ js "octocat") by compute_done.
  assert (H35 : 35 ∉ js "octocat") by compute_done.
  split; [reflexivity|]. split; [exact H63|]. split; [exact H35|].
  destruct (fetchGithubRepos_request_and_failure
              (ExGithub.failing (Some 401%nat)) (js "octocat") Ex.store)
    as [Hrun Hquery].
  split; [exact (Hquery _ eq_refl H63 H35)|exact Hrun].
Defined.

(** ** Further properties of the handlers *)

Lemma find_first_cons {A} (f : A → bool) (x : A) (l : list A) :
  find_first f (x :: l) = if f x then Some x else find_first f l.
Proof.
  unfold find_first. simpl. destruct (f x); [done|].
  by destruct (find_index f l).
Qed.

Lemma find_first_insert_other {A} (f : A → bool) (l : list A) (i : nat)
    (x y : A) :
  l !! i = Some x → f x = false → f y = false →
  find_first f (<[i := y]> l) = find_first f l.
Proof.
  revert i. induction l as [|a l IH]; intros i; [done|].
  destruct i as [|i]; simpl.
  - intros [= ->] Hx Hy. by rewrite !find_first_cons, Hx, Hy.
  - intros Hi Hx Hy. rewrite !find_first_cons. by rewrite (IH i Hi Hx Hy).
Qed.

Lemma find_first_delete_other {A} (f : A → bool) (l : list A) (i : nat)
    (x : A) :
  l !! i = Some x → f x = false →
  find_first f (delete i l) = find_first f l.
Proof.
  revert i. induction l as [|a l IH]; intros i; [done|].
  destruct i as [|i]; simpl.
  - intros [= ->] Hx. by rewrite find_first_cons, Hx.
  - intros Hi Hx. rewrite !find_first_cons. by rewrite (IH i Hi Hx).
Qed.

Lemma find_first_snoc_other {A} (f : A → bool) (l : list A) (y : A) :
  f y = false → find_first f (l ++ [y]) = find_first f l.
Proof.
  intros Hy. induction l as [|a l IH]; simpl.
  - by rewrite find_first_cons, Hy.
  - by rewrite !find_first_cons, IH.
Qed.

Lemma query_profile_find_first (u : ObjectId) (s : Store) :
  query_profile u s = find_first (by_user u) (profiles s).
Proof.
  unfold query_profile, find_first, Profile_findOne, gets. simpl.
  destruct (find_index (by_user u) (profiles s)) as [i|]; [|done]. simpl.
  by destruct (profiles s !! i).
Qed.

Lemma by_user_other (u v : ObjectId) (p : Profile.t) :
  Profile.user p = u → v ≠ u → by_user v p = false.
Proof.
  intros Hp Hv. unfold by_user. apply bool_decide_eq_false. congruence.
Qed.

Lemma set_profiles_id (s : Store) : set_profiles (profiles s) s = s.
Proof. by destruct s. Qed.

Lemma set_fields_idemp (f : ProfileFields.t) (p : Profile.t) :
  set_fields f (set_fields f p) = set_fields f p.
Proof.
  unfold set_fields. simpl. f_equal;
    repeat case_match; simplify_eq; try done;
    by destruct (ProfileFields.skills f).
Qed.

Lemma set_fields_new_Profile (f : ProfileFields.t) :
  set_fields f (doc (new_Profile f)) = doc (new_Profile f).
Proof.
  unfold set_fields, new_Profile. simpl. f_equal;
    repeat case_match; simplify_eq; try done;
    by destruct (ProfileFields.skills f).
Qed.

(** What [POST /] does to the store, and what it answers, in the three
    cases. *)
Lemma upsertProfile_cases (s : Store) (u : ObjectId) (b : ProfileBody.t) :
  (upsertProfile_checks b ≠ [] ∧
   upsertProfile u b s =
     (s, res_status_json 400 (JErrors (upsertProfile_checks b)))) ∨
  (upsertProfile_checks b = [] ∧
   ∃ i p, find_index (by_user u) (profiles s) = Some i ∧
          profiles s !! i = Some p ∧ Profile.user p = u ∧
          upsertProfile u b s =
            (set_profiles
               (<[i := set_fields (build_profilefields u b) p]> (profiles s)) s,
             res_json (JProfile (set_fields (build_profilefields u b) p)))) ∨
  (upsertProfile_checks b = [] ∧
   find_index (by_user u) (profiles s) = None ∧
   upsertProfile u b s =
     (set_profiles
        (profiles s ++ [doc (new_Profile (build_profilefields u b))]) s,
      res_json (JProfile (doc (new_Profile (build_profilefields u b)))))).
Proof.
  destruct (decide (upsertProfile_checks b = [])) as [Hb|Hb];
    [|left; split; [done|by apply upsertProfile_invalid]].
  right. destruct (find_index (by_user u) (profiles s)) as [i|] eqn:Hi.
  - left. split; [done|].
    destruct (find_index_Some _ _ _ Hi) as (p & Hp & Hpu%by_user_true & _).
    exists i, p. split_and!; [done..|]. by apply upsertProfile_update.
  - right. split_and!; [done..|]. by apply upsertProfile_create.
Qed.

(** X1.  [POST /] by one user leaves every other user's profile, all user
    records and all posts as they were, whether the request passes the
    checks or not. *)
Theorem upsertProfile_frame
    (s : Store) (u v : ObjectId) (b : ProfileBody.t) :
  v ≠ u →
  query_profile v (upsertProfile u b s).1 = query_profile v s ∧
  users (upsertProfile u b s).1 = users s ∧
  posts (upsertProfile u b s).1 = posts s.
Proof.
  intros Hv. rewrite !query_profile_find_first.
  destruct (upsertProfile_cases s u b)
    as [[_ ->]|[(_ & i & p & _ & Hp & Hpu & ->)|(_ & _ & ->)]]; simpl.
  - done.
  - split_and!; [|done..].
    apply (find_first_insert_other _ _ _ p); [done|..];
      by apply (by_user_other u).
  - split_and!; [|done..].
    apply find_first_snoc_other. by apply (by_user_other u).
Qed.

(** X2.  Sending the same [POST /] again changes nothing: the second call
    finds the store the first one left, leaves it as it is, and gives the
    first call's response (the same profile, or the same 400). *)
Theorem upsertProfile_twice (s : Store) (u : ObjectId) (b : ProfileBody.t) :
  upsertProfile u b (upsertProfile u b s).1 = upsertProfile u b s.
Proof.
  destruct (upsertProfile_cases s u b)
    as [[Hb ->]|[(Hb & i & p & Hi & Hp & Hpu & ->)|(Hb & Hi & ->)]];
    cbn [fst].
  - by apply upsertProfile_invalid.
  - set (p1 := set_fields (build_profilefields u b) p).
    assert (Hlt : (i < length (profiles s))%nat) by by eapply lookup_lt_Some.
    rewrite (upsertProfile_update
               (set_profiles (<[i := p1]> (profiles s)) s) u b i p1 Hb).
    + simpl. unfold p1. by rewrite set_fields_idemp, list_insert_insert_eq.
    + simpl. apply find_index_insert; [done|apply by_user_set_fields].
    + simpl. by apply list_lookup_insert_eq.
  - set (p0 := doc (new_Profile (build_profilefields u b))).
    rewrite (upsertProfile_update
               (set_profiles (profiles s ++ [p0]) s) u b
               (length (profiles s)) p0 Hb).
    + simpl. unfold p0. rewrite set_fields_new_Profile.
      rewrite list_insert_id; [done|].
      by rewrite lookup_app_r, Nat.sub_diag.
    + simpl. apply find_index_snoc; [done|apply by_user_new_Profile].
    + simpl. by rewrite lookup_app_r, Nat.sub_diag.
Qed.

(** X3.  After a [POST /] that passes the checks, [GET /me] by the same
    user answers 200 with the profile the POST returned, joined with the
    user's record; that profile has the request's status, the skills
    split from the request, and every optional field the request gave. *)
Theorem upsertProfile_then_getOwnProfile
    (s : Store) (u : ObjectId) (b : ProfileBody.t) :
  upsertProfile_checks b = [] →
  ∃ p',
    (upsertProfile u b s).2 = res_json (JProfile p') ∧
    getOwnProfile u (upsertProfile u b s).1 =
      ((upsertProfile u b s).1, res_json (JPopulated (p', users s !! u))) ∧
    Profile.user p' = u ∧
    Profile.status p' = ProfileBody.status b ∧
    Some (Profile.skills p') =
      (λ skills, trim <$> split comma skills) <$> ProfileBody.skills b ∧
    (truthy (ProfileBody.company b) = true →
       Profile.company p' = ProfileBody.company b) ∧
    (truthy (ProfileBody.website b) = true →
       Profile.website p' = ProfileBody.website b) ∧
    (truthy (ProfileBody.location b) = true →
       Profile.location p' = ProfileBody.location b) ∧
    (truthy (ProfileBody.bio b) = true → Profile.bio p' = ProfileBody.bio b) ∧
    (truthy (ProfileBody.githubusername b) = true →
       Profile.githubusername p' = ProfileBody.githubusername b).
Proof.
  intros Hb.
  assert (Hstatus : truthy (ProfileBody.status b) = true ∧
                    truthy (ProfileBody.skills b) = true).
  { rewrite upsertProfile_checks_body in Hb. unfold body_check in Hb.
    apply app_eq_nil in Hb as [H1 H2].
    destruct (ProfileBody.status b) as [[|??]|], (ProfileBody.skills b)
      as [[|??]|]; done. }
  destruct Hstatus as [Hstatus Hskills].
  destruct (upsertProfile_stored s u b Hb) as (p' & Hres & Hq & Hp').
  exists p'. split; [done|].
  assert (Husers : users (upsertProfile u b s).1 = users s).
  { destruct (upsertProfile_cases s u b)
      as [[_ ->]|[(_ & i & p & _ & _ & _ & ->)|(_ & _ & ->)]]; done. }
  pose proof (query_profile_user _ _ _ Hq) as Hu.
  split.
  { pose proof Hq as (i & Hi & Hp)%query_profile_Some.
    unfold getOwnProfile, try_catch, mbind, M_bind, Profile_findOne, gets.
    simpl. rewrite Hi. simpl. rewrite Hp. simpl.
    unfold mbind, M_bind, populate, gets. simpl.
    by rewrite Husers, Hu. }
  split; [done|].
  subst p'.
  destruct (query_profile u s) as [p|]; simpl;
    rewrite (assign_if_truthy _ Hstatus), Hskills.
  - split_and!.
    + by destruct (ProfileBody.status b).
    + by destruct (ProfileBody.skills b).
    + intros H. rewrite (assign_if_truthy _ H).
      by destruct (ProfileBody.company b).
    + intros H. rewrite (assign_if_truthy _ H).
      by destruct (ProfileBody.website b).
    + intros H. rewrite (assign_if_truthy _ H).
      by destruct (ProfileBody.location b).
    + intros H. rewrite (assign_if_truthy _ H).
      by destruct (ProfileBody.bio b).
    + intros H. rewrite (assign_if_truthy _ H).
      by destruct (ProfileBody.githubusername b).
  - split_and!; [done|by destruct (ProfileBody.skills b)|..];
      intros H; by rewrite (assign_if_truthy _ H).
Qed.

(** X4.  [DELETE /] by one user leaves every other user's profile, user
    record and posts as they were. *)
Theorem deleteOwnProfile_frame (s : Store) (u v : ObjectId) :
  v ≠ u →
  query_profile v (deleteOwnProfile u s).1 = query_profile v s ∧
  users (deleteOwnProfile u s).1 !! v = users s !! v ∧
  filter (λ p, Post.user p = v) (posts (deleteOwnProfile u s).1)
    = filter (λ p, Post.user p = v) (posts s).
Proof.
  intros Hv. rewrite deleteOwnProfile_run, !query_profile_find_first.
  cbn [fst profiles users posts]. split_and!.
  - destruct (find_index (by_user u) (profiles s)) as [i|] eqn:Hi; [|done].
    destruct (find_index_Some _ _ _ Hi) as (p & Hp & Hpu%by_user_true & _).
    apply (find_first_delete_other _ _ _ p Hp). by apply (by_user_other u).
  - by apply lookup_delete_ne.
  - induction (posts s) as [|q l IH]; [done|].
    destruct (decide (Post.user q = v)) as [Hq|Hq].
    + rewrite (filter_cons_True (λ p, Post.user p ≠ u)) by congruence.
      rewrite !(filter_cons_True (λ p, Post.user p = v)) by done.
      by rewrite IH.
    + rewrite (filter_cons_False (λ p, Post.user p = v) q l) by done.
      destruct (decide (Post.user q = u)) as [Hqu|Hqu].
      * by rewrite (filter_cons_False (λ p, Post.user p ≠ u)) by auto.
      * rewrite (filter_cons_True (λ p, Post.user p ≠ u)) by done.
        by rewrite (filter_cons_False (λ p, Post.user p = v)) by done.
Qed.

(** With at most one profile per user, removing the first profile of a
    user leaves none of that user. *)
Lemma find_index_after_delete (s : Store) (u : ObjectId) :
  one_profile_per_user s →
  find_index (by_user u)
    (match find_index (by_user u) (profiles s) with
     | Some i => delete i (profiles s)
     | None => profiles s
     end) = None.
Proof.
  intros Hone.
  destruct (find_index (by_user u) (profiles s)) as [i|] eqn:Hi; [|done].
  destruct (find_index_Some _ _ _ Hi) as (p & Hp & Hpu%by_user_true & _).
  apply find_index_None. intros x Hx.
  destruct (by_user u x) eqn:Hxu; [|done]. apply by_user_true in Hxu.
  exfalso. eapply (NoDup_delete_lookup _ i u Hone).
  - by rewrite list_lookup_fmap, Hp; simpl; rewrite Hpu.
  - rewrite <- list_fmap_delete. apply list_elem_of_fmap. eauto.
Qed.

(** X5.  [DELETE /] never answers not-found: on a store with at most one
    profile per user, a second [DELETE /] by the same user finds nothing
    left to remove, changes nothing and answers 200 [User removed!]
    again. *)
Theorem deleteOwnProfile_twice (s : Store) (u : ObjectId) :
  one_profile_per_user s →
  deleteOwnProfile u (deleteOwnProfile u s).1 =
    ((deleteOwnProfile u s).1, res_json (JMsg "User removed!")).
Proof.
  intros Hone.
  pose proof (find_index_after_delete s u Hone) as Hq.
  rewrite (deleteOwnProfile_run (deleteOwnProfile u s).1).
  rewrite deleteOwnProfile_run. cbn [fst profiles users posts].
  rewrite Hq.
  f_equal. f_equal.
  - apply map_eq. intros k. destruct (decide (k = u)) as [->|Hk].
    + by rewrite !lookup_delete_eq.
    + by rewrite !lookup_delete_ne.
  - induction (posts s) as [|q l IH]; [done|].
    destruct (decide (Post.user q = u)) as [Hqu|Hqu].
    + by rewrite (filter_cons_False _ q l) by auto.
    + rewrite (filter_cons_True _ q l) by done.
      rewrite (filter_cons_True _ q) by done. by rewrite IH.
Qed.

Lemma populate_all_run (l : list Profile.t) (s : Store) :
  populate_all l s = (s, inr (populated s <$> l)).
Proof.
  induction l as [|p l IH]; [done|]. simpl.
  unfold mbind, M_bind, populate, gets. by rewrite IH.
Qed.

(** X7.  The GET handlers only read: whatever they answer, the store after
    them is the store before them. *)
Theorem get_handlers_read_only
    (s : Store) (u : ObjectId) (user_id username : jsstring)
    (env : GithubEnv) :
  (getOwnProfile u s).1 = s ∧
  (listProfiles s).1 = s ∧
  (getProfileByUser user_id s).1 = s ∧
  (RoutesApiProfile.getProfileByUser user_id s).1 = s ∧
  (RoutesApiProfile.getProfileByUser_second user_id s).1 = s ∧
  (fetchGithubRepos env username s).1 = s.
Proof.
  split_and!.
  - unfold getOwnProfile, try_catch, mbind, M_bind, Profile_findOne, gets.
    simpl. destruct (find_index (by_user u) (profiles s)) as [i|]; [|done].
    simpl. by destruct (profiles s !! i).
  - unfold listProfiles, try_catch, mbind, M_bind, Profile_find_all, gets.
    by rewrite populate_all_run.
  - unfold getProfileByUser, try_catch, mbind, M_bind, cast_filter.
    destruct (castObjectId user_id) as [e|w]; [done|]. simpl.
    unfold Profile_findOne, gets.
    destruct (find_index (by_user w) (profiles s)) as [i|]; [|done].
    simpl. by destruct (profiles s !! i).
  - unfold RoutesApiProfile.getProfileByUser, try_catch, mbind, M_bind,
      cast_filter.
    destruct (castObjectId user_id) as [e|w]; [done|]. simpl.
    unfold Profile_find, gets. rewrite populate_all_run.
    by destruct (Z.of_nat _ =? 0)%Z.
  - unfold RoutesApiProfile.getProfileByUser_second, try_catch, mbind,
      M_bind, cast_filter.
    destruct (castObjectId user_id) as [e|w]; [done|]. simpl.
    unfold Profile_find, gets. by rewrite populate_all_run.
  - by rewrite fetchGithubRepos_run.
Qed.

Lemma filter_by_user_one (u : ObjectId) (l : list Profile.t) (p : Profile.t) :
  NoDup (Profile.user <$> l) →
  find_first (by_user u) l = Some p →
  filter (λ p, Profile.user p = u) l = [p].
Proof.
  induction l as [|a l IH]; [done|].
  rewrite fmap_cons, NoDup_cons, find_first_cons. intros [Ha Hl].
  destruct (by_user u a) eqn:Hau.
  - intros [= ->]. apply by_user_true in Hau.
    rewrite filter_cons_True by done. f_equal.
    apply filter_by_user_nil, find_index_None. intros x Hx.
    destruct (by_user u x) eqn:Hxu; [|done]. apply by_user_true in Hxu.
    exfalso. apply Ha, list_elem_of_fmap. exists x. split; [congruence|done].
  - intros Hp. rewrite filter_cons_False; [by apply IH|].
    intros Hu%by_user_true. congruence.
Qed.

(** X8.  [GET /user/:user_id] of the first router of
    [src/routes/api/profile.js], for an identifier that casts to a user
    with a profile, on a store with at most one profile per user: 200 with
    the one-element list holding that profile joined with the user's
    record. *)
Theorem RoutesApiProfile_getProfileByUser_linked
    (s : Store) (user_id : jsstring) (u : ObjectId) (p : Profile.t) :
  castObjectId user_id = inr u →
  query_profile u s = Some p →
  one_profile_per_user s →
  RoutesApiProfile.getProfileByUser user_id s =
    (s, mkResponse 200 (JPopulatedList [(p, users s !! u)])).
Proof.
  intros Hu Hq Hone.
  pose proof (query_profile_user _ _ _ Hq) as Hpu.
  rewrite query_profile_find_first in Hq.
  unfold RoutesApiProfile.getProfileByUser, try_catch, mbind, M_bind,
    cast_filter.
  rewrite Hu. simpl. unfold Profile_find, gets.
  rewrite populate_all_run, (filter_by_user_one u _ p Hone Hq). simpl.
  unfold populated. by rewrite Hpu.
Qed.

Lemma put_experience_invalid (s : Store) (u : ObjectId)
    (req : Request ExperienceBody.t) (oid : jsstring) :
  put_experience_checks req ≠ [] →
  put_experience u req oid s =
    (s, res_status_json 400 (JErrors (put_experience_checks req))).
Proof.
  intros Hne. unfold put_experience. cbv zeta.
  by rewrite bool_decide_eq_false_2.
Qed.


(** X9.  [PUT /experience] in which title, company or from is missing from
    the request or empty where the request carries it answers 400 and
    writes nothing, before any profile is looked up (so also for a user
    without a profile).  The errors are those of the fields so missing or
    empty: each error names one of them, carries its message and an empty
    value, and each such field has an error.  When no cookie, header, route
    parameter or query parameter carries the three fields the list has one
    error per empty body field, in the order title, company, from. *)
Theorem put_experience_missing_required
    (s : Store) (u : ObjectId) (req : Request ExperienceBody.t)
    (oid : jsstring) :
  missing_or_empty ExperienceBody.title "title" req ∨
  missing_or_empty ExperienceBody.company "company" req ∨
  missing_or_empty ExperienceBody.from "from" req →
  put_experience u req oid s =
    (s, mkResponse 400 (JErrors (put_experience_checks req))) ∧
  put_experience_checks req ≠ [] ∧
  (∀ e, e ∈ put_experience_checks req →
     isEmpty (value e) = true ∧
     ((param e = "title" ∧ msg e = "Title is required" ∧
       missing_or_empty ExperienceBody.title "title" req) ∨
      (param e = "company" ∧ msg e = "Company is required" ∧
       missing_or_empty ExperienceBody.company "company" req) ∨
      (param e = "from" ∧ msg e = "From date is required" ∧
       missing_or_empty ExperienceBody.from "from" req))) ∧
  (missing_or_empty ExperienceBody.title "title" req →
     ∃ e, e ∈ put_experience_checks req ∧ param e = "title") ∧
  (missing_or_empty ExperienceBody.company "company" req →
     ∃ e, e ∈ put_experience_checks req ∧ param e = "company") ∧
  (missing_or_empty ExperienceBody.from "from" req →
     ∃ e, e ∈ put_experience_checks req ∧ param e = "from") ∧
  (only_in_body "title" req → only_in_body "company" req →
   only_in_body "from" req →
   param <$> put_experience_checks req =
     (if isEmpty (ExperienceBody.title (req_body req))
      then ["title"] else []) ++
     (if isEmpty (ExperienceBody.company (req_body req))
      then ["company"] else []) ++
     (if isEmpty (ExperienceBody.from (req_body req))
      then ["from"] else [])).
Proof.
  intros Hmissing.
  assert (H1 : missing_or_empty ExperienceBody.title "title" req →
               ∃ e, e ∈ put_experience_checks req ∧ param e = "title").
  { intros (e & He & Hp & _)%(rejected_has_error _ _ "Title is required").
    exists e. split; [|done]. unfold put_experience_checks.
    rewrite !elem_of_app. auto. }
  assert (H2 : missing_or_empty ExperienceBody.company "company" req →
               ∃ e, e ∈ put_experience_checks req ∧ param e = "company").
  { intros (e & He & Hp & _)%(rejected_has_error _ _ "Company is required").
    exists e. split; [|done]. unfold put_experience_checks.
    rewrite !elem_of_app. auto. }
  assert (H3 : missing_or_empty ExperienceBody.from "from" req →
               ∃ e, e ∈ put_experience_checks req ∧ param e = "from").
  { intros (e & He & Hp & _)%(rejected_has_error _ _ "From date is required").
    exists e. split; [|done]. unfold put_experience_checks.
    rewrite !elem_of_app. auto. }
  assert (Hne : put_experience_checks req ≠ []).
  { intros Hnil. rewrite Hnil in H1, H2, H3.
    destruct Hmissing as [H|[H|H]];
      [destruct (H1 H) as (e & He & _)|destruct (H2 H) as (e & He & _)
      |destruct (H3 H) as (e & He & _)]; by apply elem_of_nil in He. }
  split_and!; [by apply put_experience_invalid|done| |done..|].
  - intros e. unfold put_experience_checks. rewrite !elem_of_app.
    intros [He|[He|He]];
      destruct (check_not_isEmpty_elem _ _ _ _ _ He) as (? & ? & ? & ?);
      split; auto.
  - intros Hb1 Hb2 Hb3. unfold put_experience_checks.
    rewrite !check_not_isEmpty_only_in_body by done.
    unfold body_check. rewrite !fmap_app.
    by destruct (isEmpty (ExperienceBody.title (req_body req))),
      (isEmpty (ExperienceBody.company (req_body req))),
      (isEmpty (ExperienceBody.from (req_body req))).
Qed.


(** X11.  For a user without a profile the four handlers of the embedded
    sequences read a property of [null]: a well-formed add answers 500
    [Server error!!], a removal 500 [Server error!], and nothing is
    written. *)
Theorem sequences_without_profile
    (s : Store) (u : ObjectId) (E : ExperienceBody.t) (D : EducationBody.t)
    (oid x : jsstring) :
  query_profile u s = None →
  addExperience_checks E = [] →
  addEducation_checks D = [] →
  addExperience u E oid s = (s, mkResponse 500 (Text "Server error!!")) ∧
  addEducation u D oid s = (s, mkResponse 500 (Text "Server error!!")) ∧
  removeExperience u x s = (s, mkResponse 500 (Text "Server error!")) ∧
  removeEducation u x s = (s, mkResponse 500 (Text "Server error!")).
Proof.
  intros Hi%query_profile_None HE HD. split_and!.
  - rewrite addExperience_unfold; cbv zeta. rewrite HE. simpl.
    unfold try_catch, mbind, M_bind, Profile_findOne, gets. simpl.
    by rewrite Hi.
  - rewrite addEducation_unfold; cbv zeta. rewrite HD. simpl.
    unfold try_catch, mbind, M_bind, Profile_findOne, gets. simpl.
    by rewrite Hi.
  - unfold removeExperience.
    unfold try_catch, mbind, M_bind, Profile_findOne, gets. simpl.
    by rewrite Hi.
  - unfold removeEducation.
    unfold try_catch, mbind, M_bind, Profile_findOne, gets. simpl.
    by rewrite Hi.
Qed.

Lemma set_experiences_id (p : Profile.t) :
  Profile.set_experiences (Profile.experiences p) p = p.
Proof. by destruct p. Qed.

Lemma set_education_id (p : Profile.t) :
  Profile.set_education (Profile.education p) p = p.
Proof. by destruct p. Qed.

Lemma splice_head {A} (x : A) (l : list A) : splice 0 1 (x :: l) = l.
Proof. apply (splice_at 0 (x :: l)). simpl. lia. Qed.

Lemma store_insert_back (s : Store) (i : nat) (p p1 : Profile.t) :
  profiles s !! i = Some p →
  set_profiles
    (<[i := p]> (profiles (set_profiles (<[i := p1]> (profiles s)) s)))
    (set_profiles (<[i := p1]> (profiles s)) s) = s.
Proof.
  intros Hp. destruct s as [l us ps]. unfold set_profiles. simpl in *.
  by rewrite list_insert_insert_eq, list_insert_id.
Qed.

(** X12.  Adding an entry and then removing it by the identifier it was
    given undoes the addition: the store is again the one before the two
    calls and the removal answers 200 with the profile as it was, for
    experiences and for education, whatever identifiers the older entries
    carry. *)
Theorem add_then_remove
    (s : Store) (u : ObjectId) (p : Profile.t)
    (E : ExperienceBody.t) (D : EducationBody.t) (oid : jsstring) :
  query_profile u s = Some p →
  addExperience_checks E = [] →
  addEducation_checks D = [] →
  removeExperience u oid (addExperience u E oid s).1 =
    (s, mkResponse 200 (JProfile p)) ∧
  removeEducation u oid (addEducation u D oid s).1 =
    (s, mkResponse 200 (JProfile p)).
Proof.
  intros Hq HE HD.
  pose proof Hq as (i & Hi & Hp)%query_profile_Some.
  pose proof (query_profile_user _ _ _ Hq) as Hu.
  split.
  - rewrite (addExperience_found s u E oid i p HE Hi Hp). cbn [fst].
    set (p1 := Profile.set_experiences _ p).
    destruct (find_index_after_insert s u i p1 Hi Hu) as [Hi1 Hp1].
    rewrite (removeExperience_found
               (set_profiles (<[i := p1]> (profiles s)) s) u oid i p1 Hi1 Hp1).
    assert (Hback :
      Profile.set_experiences
        (splice (indexOf oid (Experience.id <$> Profile.experiences p1)) 1
           (Profile.experiences p1)) p1 = p).
    { unfold p1. simpl. rewrite decide_True by done.
      rewrite splice_head. by destruct p. }
    rewrite Hback. by rewrite store_insert_back.
  - rewrite (addEducation_found s u D oid i p HD Hi Hp). cbn [fst].
    set (p1 := Profile.set_education _ p).
    destruct (find_index_after_insert s u i p1 Hi Hu) as [Hi1 Hp1].
    rewrite (removeEducation_found
               (set_profiles (<[i := p1]> (profiles s)) s) u oid i p1 Hi1 Hp1).
    assert (Hback :
      Profile.set_education
        (splice (indexOf oid (Education.id <$> Profile.education p1)) 1
           (Profile.education p1)) p1 = p).
    { unfold p1. simpl. rewrite decide_True by done.
      rewrite splice_head. by destruct p. }
    rewrite Hback. by rewrite store_insert_back.
Qed.

Lemma indexOf_app `{EqDecision A} (x : A) (l1 l2 : list A) :
  x ∉ l1 → indexOf x (l1 ++ x :: l2) = Z.of_nat (length l1).
Proof.
  induction l1 as [|y l1 IH]; simpl.
  - intros _. by rewrite decide_True.
  - intros [Hy Hl]%not_elem_of_cons. rewrite decide_False by done.
    rewrite (IH Hl). destruct (Z.ltb_spec (Z.of_nat (length l1)) 0); lia.
Qed.

Lemma splice_middle {A} (l1 l2 : list A) (x : A) :
  splice (Z.of_nat (length l1)) 1 (l1 ++ x :: l2) = l1 ++ l2.
Proof.
  rewrite splice_at by (rewrite length_app; simpl; lia).
  by rewrite delete_middle.
Qed.

(** X13.  A removal by an identifier that is in the sequence takes out the
    first entry that carries it and nothing else: if the sequence is
    [before ++ e :: behind] with [e] the first entry of that identifier,
    it becomes [before ++ behind], and the response is 200 with the
    profile so stored.  The same for education. *)
Theorem remove_first_match
    (s : Store) (u : ObjectId) (p : Profile.t) (x : jsstring) :
  query_profile u s = Some p →
  (∀ l1 e l2,
     Profile.experiences p = l1 ++ e :: l2 →
     Experience.id e = x → x ∉ Experience.id <$> l1 →
     ∃ p',
       (removeExperience u x s).2 = mkResponse 200 (JProfile p') ∧
       query_profile u (removeExperience u x s).1 = Some p' ∧
       p' = Profile.set_experiences (l1 ++ l2) p) ∧
  (∀ l1 e l2,
     Profile.education p = l1 ++ e :: l2 →
     Education.id e = x → x ∉ Education.id <$> l1 →
     ∃ p',
       (removeEducation u x s).2 = mkResponse 200 (JProfile p') ∧
       query_profile u (removeEducation u x s).1 = Some p' ∧
       p' = Profile.set_education (l1 ++ l2) p).
Proof.
  intros Hq.
  pose proof Hq as (i & Hi & Hp)%query_profile_Some.
  pose proof (query_profile_user _ _ _ Hq) as Hu.
  split.
  - intros l1 e l2 Hl He Hl1.
    rewrite (removeExperience_found s u x i p Hi Hp). cbn [fst snd].
    rewrite Hl, fmap_app, fmap_cons, He, (indexOf_app _ _ _ Hl1).
    rewrite length_fmap, splice_middle.
    eexists. split_and!; [done| |done].
    by apply query_profile_insert.
  - intros l1 e l2 Hl He Hl1.
    rewrite (removeEducation_found s u x i p Hi Hp). cbn [fst snd].
    rewrite Hl, fmap_app, fmap_cons, He, (indexOf_app _ _ _ Hl1).
    rewrite length_fmap, splice_middle.
    eexists. split_and!; [done| |done].
    by apply query_profile_insert.
Qed.

Lemma rewritten_in_place_frame (u : ObjectId)
    (same : Profile.t → Profile.t → Prop) (s s' : Store) :
  (∀ p, same p p) →
  (∀ p p', same p p' → Profile.user p' = Profile.user p) →
  rewritten_in_place u same s s' →
  users s' = users s ∧ posts s' = posts s ∧
  Profile.user <$> profiles s' = Profile.user <$> profiles s ∧
  (∀ v, v ≠ u → query_profile v s' = query_profile v s) ∧
  (∀ p, query_profile u s = Some p →
        ∃ p', query_profile u s' = Some p' ∧ same p p').
Proof.
  intros Hrefl Huser [->|(i & p & p' & Hi & Hp & Hsame & ->)].
  - split_and!; [done..|]. intros p Hq. by exists p.
  - destruct (find_index_Some _ _ _ Hi) as (? & ? & Hpu%by_user_true & _).
    simplify_eq. pose proof (Huser _ _ Hsame) as Hu'.
    split_and!; [done|done|by apply (owners_insert _ _ p)| |].
    + intros v Hv. rewrite !query_profile_find_first. simpl.
      apply (find_first_insert_other _ _ _ p _ Hp);
        apply (by_user_other (Profile.user p)); congruence.
    + intros q (j & Hj & Hq)%query_profile_Some. simplify_eq.
      exists p'. split; [|done]. by apply query_profile_insert.
Qed.

Lemma addExperience_in_place (s : Store) (u : ObjectId)
    (b : ExperienceBody.t) (oid : jsstring) :
  rewritten_in_place u only_experiences_differ s (addExperience u b oid s).1.
Proof.
  destruct (find_index (by_user u) (profiles s)) as [i|] eqn:Hi.
  - destruct (find_index_Some _ _ _ Hi) as (p & Hp & _).
    destruct (decide (addExperience_checks b = [])) as [Hb|Hb].
    + right. exists i, p. eexists. split_and!; [done|done| |].
      2: by rewrite (addExperience_found s u b oid i p Hb Hi Hp).
      by destruct p.
    + left. rewrite addExperience_unfold; cbv zeta. by rewrite bool_decide_eq_false_2.
  - left. by destruct (no_profile_500 s u Hi) as (-> & _).
Qed.

Lemma removeExperience_in_place (s : Store) (u : ObjectId) (x : jsstring) :
  rewritten_in_place u only_experiences_differ s (removeExperience u x s).1.
Proof.
  destruct (find_index (by_user u) (profiles s)) as [i|] eqn:Hi.
  - destruct (find_index_Some _ _ _ Hi) as (p & Hp & _).
    right. exists i, p. eexists. split_and!; [done|done| |].
    2: by rewrite (removeExperience_found s u x i p Hi Hp).
    by destruct p.
  - left. by destruct (no_profile_500 s u Hi) as (_ & _ & -> & _).
Qed.

Lemma addEducation_in_place (s : Store) (u : ObjectId)
    (b : EducationBody.t) (oid : jsstring) :
  rewritten_in_place u only_education_differ s (addEducation u b oid s).1.
Proof.
  destruct (find_index (by_user u) (profiles s)) as [i|] eqn:Hi.
  - destruct (find_index_Some _ _ _ Hi) as (p & Hp & _).
    destruct (decide (addEducation_checks b = [])) as [Hb|Hb].
    + right. exists i, p. eexists. split_and!; [done|done| |].
      2: by rewrite (addEducation_found s u b oid i p Hb Hi Hp).
      by destruct p.
    + left. rewrite addEducation_unfold; cbv zeta. by rewrite bool_decide_eq_false_2.
  - left. by destruct (no_profile_500 s u Hi) as (_ & -> & _).
Qed.

Lemma removeEducation_in_place (s : Store) (u : ObjectId) (x : jsstring) :
  rewritten_in_place u only_education_differ s (removeEducation u x s).1.
Proof.
  destruct (find_index (by_user u) (profiles s)) as [i|] eqn:Hi.
  - destruct (find_index_Some _ _ _ Hi) as (p & Hp & _).
    right. exists i, p. eexists. split_and!; [done|done| |].
    2: by rewrite (removeEducation_found s u x i p Hi Hp).
    by destruct p.
  - left. by destruct (no_profile_500 s u Hi) as (_ & _ & _ & ->).
Qed.

Lemma only_experiences_differ_user (p p' : Profile.t) :
  only_experiences_differ p p' → Profile.user p' = Profile.user p.
Proof. unfold only_experiences_differ. by intros ->. Qed.

Lemma only_education_differ_user (p p' : Profile.t) :
  only_education_differ p p' → Profile.user p' = Profile.user p.
Proof. unfold only_education_differ. by intros ->. Qed.

(** X14.  [PUT /experience] and [DELETE /experience/:exp_id] touch nothing
    but the caller's experiences: user records, posts, the owners of the
    profiles and every other user's profile stay as they were, and the
    caller's profile afterwards is the one before with, at most, another
    [experiences] sequence (education, skills, social and the rest
    unchanged). *)
Theorem experience_handlers_frame
    (s s' : Store) (u : ObjectId) (b : ExperienceBody.t) (oid x : jsstring) :
  s' = (addExperience u b oid s).1 ∨ s' = (removeExperience u x s).1 →
  users s' = users s ∧ posts s' = posts s ∧
  Profile.user <$> profiles s' = Profile.user <$> profiles s ∧
  (∀ v, v ≠ u → query_profile v s' = query_profile v s) ∧
  (∀ p, query_profile u s = Some p →
        ∃ p', query_profile u s' = Some p' ∧
              p' = Profile.set_experiences (Profile.experiences p') p).
Proof.
  intros Hs'.
  apply (rewritten_in_place_frame u only_experiences_differ).
  - intros p. unfold only_experiences_differ. by destruct p.
  - apply only_experiences_differ_user.
  - destruct Hs' as [->| ->];
      [apply addExperience_in_place|apply removeExperience_in_place].
Qed.

(** X15.  [PUT /education] and [DELETE /education/:edu_id] touch nothing
    but the caller's education, in the same sense. *)
Theorem education_handlers_frame
    (s s' : Store) (u : ObjectId) (b : EducationBody.t) (oid x : jsstring) :
  s' = (addEducation u b oid s).1 ∨ s' = (removeEducation u x s).1 →
  users s' = users s ∧ posts s' = posts s ∧
  Profile.user <$> profiles s' = Profile.user <$> profiles s ∧
  (∀ v, v ≠ u → query_profile v s' = query_profile v s) ∧
  (∀ p, query_profile u s = Some p →
        ∃ p', query_profile u s' = Some p' ∧
              p' = Profile.set_education (Profile.education p') p).
Proof.
  intros Hs'.
  apply (rewritten_in_place_frame u only_education_differ).
  - intros p. unfold only_education_differ. by destruct p.
  - apply only_education_differ_user.
  - destruct Hs' as [->| ->];
      [apply addEducation_in_place|apply removeEducation_in_place].
Qed.

Lemma step_users_posts (o : Op) (s : Store) :
  dom (users (step o s).1) ⊆ dom (users s) ∧
  posts (step o s).1 `sublist_of` posts s ∧
  (is_delete o = false →
     users (step o s).1 = users s ∧ posts (step o s).1 = posts s).
Proof.
  assert (Hsame : ∀ s', users s' = users s ∧ posts s' = posts s →
    dom (users s') ⊆ dom (users s) ∧ posts s' `sublist_of` posts s ∧
    (is_delete o = false → users s' = users s ∧ posts s' = posts s)).
  { by intros s' [-> ->]. }
  destruct o as [u b|u b oid|u b oid|u x|u x|u]; cbn [step].
  - apply Hsame.
    destruct (upsertProfile_cases s u b)
      as [[_ ->]|[(_ & i & p & _ & _ & _ & ->)|(_ & _ & ->)]]; done.
  - apply Hsame.
    destruct (rewritten_in_place_frame u only_experiences_differ s _
                (λ p, eq_sym (set_experiences_id p))
                only_experiences_differ_user
                (addExperience_in_place s u b oid)) as (? & ? & _); done.
  - apply Hsame.
    destruct (rewritten_in_place_frame u only_education_differ s _
                (λ p, eq_sym (set_education_id p))
                only_education_differ_user
                (addEducation_in_place s u b oid)) as (? & ? & _); done.
  - apply Hsame.
    destruct (rewritten_in_place_frame u only_experiences_differ s _
                (λ p, eq_sym (set_experiences_id p))
                only_experiences_differ_user
                (removeExperience_in_place s u x)) as (? & ? & _); done.
  - apply Hsame.
    destruct (rewritten_in_place_frame u only_education_differ s _
                (λ p, eq_sym (set_education_id p))
                only_education_differ_user
                (removeEducation_in_place s u x)) as (? & ? & _); done.
  - rewrite deleteOwnProfile_run. cbn [fst users posts is_delete].
    split_and!; [|apply sublist_filter; apply _|done].
    rewrite dom_delete_L. by apply subseteq_difference_l.
Qed.

(** X16.  The router creates no user record and no post: after any
    sequence of upsertProfile, addExperience, addEducation,
    removeExperience, removeEducation and deleteOwnProfile calls the user
    records are among those of the start and the posts are a subsequence of
    the starting ones, and a sequence without deleteOwnProfile leaves both
    exactly as they were. *)
Theorem run_users_posts (ops : list Op) (s : Store) :
  dom (users (run ops s)) ⊆ dom (users s) ∧
  posts (run ops s) `sublist_of` posts s ∧
  (forallb (λ o, negb (is_delete o)) ops = true →
     users (run ops s) = users s ∧ posts (run ops s) = posts s).
Proof.
  revert s. induction ops as [|o ops IH]; intros s; [done|].
  cbn [run forallb].
  destruct (IH (step o s).1) as (Hu & Hp & Hnd).
  destruct (step_users_posts o s) as (Hu1 & Hp1 & Hnd1).
  split_and!.
  - by etrans.
  - by etrans.
  - intros [Ho Hops]%andb_true_iff. apply negb_true_iff in Ho.
    destruct (Hnd Hops) as [-> ->]. by apply Hnd1.
Qed.

Lemma split_length (sep : N) (s : jsstring) :
  length (split sep s) = S (occurrences sep s).
Proof.
  unfold occurrences. induction s as [|c s IH]; [done|]. cbn [split].
  destruct (N.eqb_spec c sep) as [->|Hne].
  - rewrite filter_cons_True by done. cbn [length]. by rewrite IH.
  - rewrite filter_cons_False by done. rewrite <- IH.
    pose proof (split_not_nil sep s). by destruct (split sep s).
Qed.

Lemma split_app_sep (sep : N) (seg t : jsstring) :
  sep ∉ seg → split sep (seg ++ sep :: t) = seg :: split sep t.
Proof.
  induction seg as [|c seg IH]; simpl.
  - intros _. by rewrite N.eqb_refl.
  - intros [Hc Hseg]%not_elem_of_cons.
    destruct (N.eqb_spec c sep); [done|]. by rewrite (IH Hseg).
Qed.

Lemma split_no_occurrence (sep : N) (seg : jsstring) :
  sep ∉ seg → split sep seg = [seg].
Proof.
  induction seg as [|c seg IH]; [done|]. simpl.
  intros [Hc Hseg]%not_elem_of_cons.
  destruct (N.eqb_spec c sep); [done|]. by rewrite (IH Hseg).
Qed.

Lemma split_join (sep : N) (l : list jsstring) :
  l ≠ [] → Forall (λ seg, sep ∉ seg) l → split sep (join sep l) = l.
Proof.
  induction l as [|seg l IH]; [done|]. intros _ Hl.
  apply Forall_cons in Hl as [Hseg Hl].
  destruct l as [|seg' l].
  - by apply split_no_occurrence.
  - rewrite join_cons by done. rewrite split_app_sep by done.
    by rewrite IH.
Qed.

Lemma trimStart_id (s : jsstring) :
  (∀ c, head s = Some c → isWhiteSpace c = false) → trimStart s = s.
Proof.
  destruct s as [|c s]; [done|]. simpl. intros H. by rewrite (H c).
Qed.

Lemma trim_id (s : jsstring) : trimmed s → trim s = s.
Proof.
  intros [Hhead Hlast]. unfold trim, trimEnd.
  rewrite (trimStart_id s Hhead).
  rewrite trimStart_id; [apply reverse_involutive|].
  intros c. rewrite head_reverse. apply Hlast.
Qed.

(** X17.  After a [POST /] that passes the checks the caller's stored
    skills are one more than the commas of the input: nothing is dropped,
    and a doubled or trailing comma is stored as an empty skill. *)
Theorem upsertProfile_skills_count
    (s : Store) (u : ObjectId) (b : ProfileBody.t) (input : jsstring) :
  upsertProfile_checks b = [] →
  ProfileBody.skills b = Some input →
  ∃ p',
    query_profile u (upsertProfile u b s).1 = Some p' ∧
    length (Profile.skills p') = S (occurrences comma input) ∧
    ([] ∈ Profile.skills p' ↔
     ∃ seg, seg ∈ split comma input ∧
            Forall (λ c, isWhiteSpace c = true) seg).
Proof.
  intros Hb Hskills.
  destruct (upsertProfile_stored s u b Hb) as (p' & _ & Hq & Hp').
  exists p'. split; [done|].
  assert (Hstored : Profile.skills p' = trim <$> split comma input).
  { assert (truthy (Some input) = true) as Ht.
    { rewrite upsertProfile_checks_body in Hb. unfold body_check in Hb.
      rewrite Hskills in Hb. apply app_eq_nil in Hb as [_ Hb].
      by destruct input. }
    subst p'. destruct (query_profile u s); simpl; by rewrite Hskills, Ht. }
  rewrite Hstored, length_fmap, split_length. split; [done|].
  rewrite list_elem_of_fmap. split.
  - intros (seg & Hnil & Hseg). exists seg. split; [done|].
    destruct (trim_stripped seg) as (a & c & Heq & Ha & Hc).
    rewrite <- Hnil in Heq. rewrite Heq. simpl. by apply Forall_app.
  - intros (seg & Hseg & Hws). exists seg. split; [|done].
    destruct (trim_stripped seg) as (a & c & Heq & _).
    destruct (trim_trimmed seg) as [Hhead _].
    destruct (trim seg) as [|x t]; [done|].
    specialize (Hhead x eq_refl).
    rewrite Heq in Hws. apply Forall_app in Hws as [_ Hws].
    apply Forall_app in Hws as [Hws _].
    apply Forall_cons in Hws as [Hx _]. congruence.
Qed.

(** X18.  The skills a POST stores survive being written back as a
    comma-separated string: joining them with commas and splitting and
    trimming again gives the same list. *)
Theorem skills_rejoin (input : jsstring) :
  trim <$> split comma (join comma (trim <$> split comma input))
  = trim <$> split comma input.
Proof.
  rewrite split_join.
  - rewrite <- list_fmap_compose. apply list_fmap_ext.
    intros _ seg _. simpl. apply trim_id, trim_trimmed.
  - pose proof (split_not_nil comma input).
    by destruct (split comma input).
  - apply Forall_fmap, Forall_forall. intros seg Hseg. simpl.
    intros Hc. apply (stripped_elem_of _ _ _ (trim_stripped seg)) in Hc.
    pose proof (split_no_sep comma input) as Hno.
    rewrite Forall_forall in Hno. by apply (Hno seg).
Qed.

(** ** The further properties at work on the example stores *)

(** X1 on the store of Alice and Bob: Alice posts, Bob's profile stays. *)
Lemma upsertProfile_frame_witness :
  Ex2.bob ≠ Ex.alice ∧
  query_profile Ex2.bob (upsertProfile Ex.alice Ex.repost Ex2.store).1
    = Some Ex2.bob_profile ∧
  posts (upsertProfile Ex.alice Ex.repost Ex2.store).1 = [Ex.post; Ex2.bob_post].
Proof.
  assert (H : Ex2.bob ≠ Ex.alice) by discriminate.
  split; [exact H|].
  destruct (upsertProfile_frame Ex2.store Ex.alice Ex2.bob Ex.repost H)
    as (Hq & _ & Hposts).
  split; [rewrite Hq; reflexivity|rewrite Hposts; reflexivity].
Defined.

(** X3 on the store without profiles. *)
Lemma upsertProfile_then_getOwnProfile_witness :
  upsertProfile_checks Ex.repost = [] ∧
  ∃ p',
    getOwnProfile Ex.alice (upsertProfile Ex.alice Ex.repost Ex.fresh).1 =
      ((upsertProfile Ex.alice Ex.repost Ex.fresh).1,
       res_json
         (JPopulated (p', Some (User.mk (js "Alice") (js "a.png"))))) ∧
    Profile.status p' = Some (js "Senior Developer").
Proof.
  split; [reflexivity|].
  destruct (upsertProfile_then_getOwnProfile Ex.fresh Ex.alice Ex.repost
              eq_refl) as (p' & _ & Hget & _ & Hstatus & _).
  exists p'. split; [exact Hget|exact Hstatus].
Defined.

(** X4 on the store of Alice and Bob: Alice deletes her account. *)
Lemma deleteOwnProfile_frame_witness :
  Ex2.bob ≠ Ex.alice ∧
  query_profile Ex2.bob (deleteOwnProfile Ex.alice Ex2.store).1
    = Some Ex2.bob_profile ∧
  filter (λ p, Post.user p = Ex2.bob)
    (posts (deleteOwnProfile Ex.alice Ex2.store).1) = [Ex2.bob_post].
Proof.
  assert (H : Ex2.bob ≠ Ex.alice) by discriminate.
  split; [exact H|].
  destruct (deleteOwnProfile_frame Ex2.store Ex.alice Ex2.bob H)
    as (Hq & _ & Hposts).
  split; [rewrite Hq; reflexivity|rewrite Hposts; reflexivity].
Defined.

(** X5 on the store of Alice and Bob. *)
Lemma deleteOwnProfile_twice_witness :
  one_profile_per_user Ex2.store ∧
  (deleteOwnProfile Ex.alice (deleteOwnProfile Ex.alice Ex2.store).1).2
    = mkResponse 200 (JMsg "User removed!").
Proof.
  assert (H : one_profile_per_user Ex2.store) by compute_done.
  split; [exact H|].
  rewrite (deleteOwnProfile_twice Ex2.store Ex.alice H). reflexivity.
Defined.

(** X8 at the 24-digit identifier of Alice. *)
Lemma RoutesApiProfile_getProfileByUser_linked_witness :
  castObjectId (js "000000000000000000000001") = inr Ex.alice ∧
  query_profile Ex.alice Ex2.store = Some Ex.profile ∧
  one_profile_per_user Ex2.store ∧
  RoutesApiProfile.getProfileByUser (js "000000000000000000000001") Ex2.store =
    (Ex2.store,
     mkResponse 200
       (JPopulatedList
          [(Ex.profile, Some (User.mk (js "Alice") (js "a.png")))])).
Proof.
  assert (H : one_profile_per_user Ex2.store) by compute_done.
  split; [reflexivity|]. split; [reflexivity|]. split; [exact H|].
  exact (RoutesApiProfile_getProfileByUser_linked Ex2.store
           (js "000000000000000000000001") Ex.alice Ex.profile
           eq_refl eq_refl H).
Defined.

(** X9 on a request whose body has company and from, and whose title is
    an empty header, for a user who has no profile. *)
Lemma put_experience_missing_required_witness :
  (missing_or_empty ExperienceBody.title "title" ExRequest.title_header ∨
   missing_or_empty ExperienceBody.company "company" ExRequest.title_header ∨
   missing_or_empty ExperienceBody.from "from" ExRequest.title_header) ∧
  put_experience Ex.alice ExRequest.title_header (js "e1") Ex.fresh =
    (Ex.fresh,
     mkResponse 400
       (JErrors [mkFieldError "headers" "title" "Title is required"
                   (Some [])])).
Proof.
  assert (H : missing_or_empty ExperienceBody.title "title"
                ExRequest.title_header ∨
              missing_or_empty ExperienceBody.company "company"
                ExRequest.title_header ∨
              missing_or_empty ExperienceBody.from "from"
                ExRequest.title_header) by (left; compute_done).
  split; [exact H|].
  destruct (put_experience_missing_required Ex.fresh Ex.alice
              ExRequest.title_header (js "e1") H) as (Hrun & _).
  rewrite Hrun. reflexivity.
Defined.


(** X11 on the store without profiles. *)
Lemma sequences_without_profile_witness :
  query_profile Ex.alice Ex.fresh = None ∧
  addExperience_checks Ex.E1 = [] ∧ addEducation_checks Ex.D1 = [] ∧
  addExperience Ex.alice Ex.E1 (js "e1") Ex.fresh =
    (Ex.fresh, mkResponse 500 (Text "Server error!!")) ∧
  removeEducation Ex.alice (js "c3") Ex.fresh =
    (Ex.fresh, mkResponse 500 (Text "Server error!")).
Proof.
  split; [reflexivity|]. split; [reflexivity|]. split; [reflexivity|].
  destruct (sequences_without_profile Ex.fresh Ex.alice Ex.E1 Ex.D1 (js "e1")
              (js "c3") eq_refl eq_refl eq_refl) as (H1 & _ & _ & H4).
  split; [exact H1|exact H4].
Defined.

(** X12 on the example store, with an identifier an older entry already
    carries. *)
Lemma add_then_remove_witness :
  query_profile Ex.alice Ex.store = Some Ex.profile ∧
  addExperience_checks Ex.E1 = [] ∧ addEducation_checks Ex.D1 = [] ∧
  (removeExperience Ex.alice (js "a1")
     (addExperience Ex.alice Ex.E1 (js "a1") Ex.store).1).1 = Ex.store ∧
  (removeEducation Ex.alice (js "a1")
     (addEducation Ex.alice Ex.D1 (js "a1") Ex.store).1).1 = Ex.store.
Proof.
  split; [reflexivity|]. split; [reflexivity|]. split; [reflexivity|].
  destruct (add_then_remove Ex.store Ex.alice Ex.profile Ex.E1 Ex.D1 (js "a1")
              eq_refl eq_refl eq_refl) as [H1 H2].
  split; [rewrite H1; reflexivity|rewrite H2; reflexivity].
Defined.

(** X13 on the example store: removing [b2] leaves [exp_a], removing [c3]
    leaves [edu_b]. *)
Lemma remove_first_match_witness :
  query_profile Ex.alice Ex.store = Some Ex.profile ∧
  (∃ p', query_profile Ex.alice (removeExperience Ex.alice (js "b2") Ex.store).1
           = Some p' ∧
         Profile.experiences p' = [Ex.exp_a]).
Proof.
  split; [reflexivity|].
  destruct (remove_first_match Ex.store Ex.alice Ex.profile (js "b2") eq_refl)
    as [Hexp _].
  assert (Hno : js "b2" ∉ Experience.id <$> [Ex.exp_a]) by compute_done.
  destruct (Hexp [Ex.exp_a] Ex.exp_b [] eq_refl eq_refl Hno)
    as (p' & _ & Hq & Hp').
  exists p'. split; [exact Hq|]. rewrite Hp'. reflexivity.
Defined.

(** X14 on the store of Alice and Bob. *)
Lemma experience_handlers_frame_witness :
  query_profile Ex2.bob (addExperience Ex.alice Ex.E1 (js "e1") Ex2.store).1
    = Some Ex2.bob_profile ∧
  ∃ p', query_profile Ex.alice
          (addExperience Ex.alice Ex.E1 (js "e1") Ex2.store).1 = Some p' ∧
        Profile.education p' = [Ex.edu_a; Ex.edu_b].
Proof.
  destruct (experience_handlers_frame Ex2.store
              (addExperience Ex.alice Ex.E1 (js "e1") Ex2.store).1
              Ex.alice Ex.E1 (js "e1") (js "e1") (or_introl eq_refl))
    as (_ & _ & _ & Hothers & Hown).
  split.
  - rewrite (Hothers Ex2.bob); [reflexivity|discriminate].
  - destruct (Hown Ex.profile eq_refl) as (p' & Hq & Hp').
    exists p'. split; [exact Hq|]. rewrite Hp'. reflexivity.
Defined.

(** X15 on the store of Alice and Bob. *)
Lemma education_handlers_frame_witness :
  query_profile Ex2.bob (removeEducation Ex.alice (js "c3") Ex2.store).1
    = Some Ex2.bob_profile ∧
  ∃ p', query_profile Ex.alice
          (removeEducation Ex.alice (js "c3") Ex2.store).1 = Some p' ∧
        Profile.experiences p' = [Ex.exp_a; Ex.exp_b].
Proof.
  destruct (education_handlers_frame Ex2.store
              (removeEducation Ex.alice (js "c3") Ex2.store).1
              Ex.alice Ex.D1 (js "e1") (js "c3") (or_intror eq_refl))
    as (_ & _ & _ & Hothers & Hown).
  split.
  - rewrite (Hothers Ex2.bob); [reflexivity|discriminate].
  - destruct (Hown Ex.profile eq_refl) as (p' & Hq & Hp').
    exists p'. split; [exact Hq|]. rewrite Hp'. reflexivity.
Defined.

(** X17 on an input with a doubled and a trailing comma: four skills, two
    of them empty. *)
Lemma upsertProfile_skills_count_witness :
  upsertProfile_checks
    (ProfileBody.mk None None None None (Some (js "Dev")) None
       (Some (js "a,, b,")) None None None None None) = [] ∧
  ∃ p',
    query_profile Ex.alice
      (upsertProfile Ex.alice
         (ProfileBody.mk None None None None (Some (js "Dev")) None
            (Some (js "a,, b,")) None None None None None) Ex.fresh).1
      = Some p' ∧
    length (Profile.skills p') = 4%nat.
Proof.
  split; [reflexivity|].
  destruct (upsertProfile_skills_count Ex.fresh Ex.alice
              (ProfileBody.mk None None None None (Some (js "Dev")) None
                 (Some (js "a,, b,")) None None None None None)
              (js "a,, b,") eq_refl eq_refl) as (p' & Hq & Hlen & _).
  exists p'. split; [exact Hq|]. rewrite Hlen. reflexivity.
Defined.

(** X19 (the cascade of the complete router) on the store of Alice and
    Bob. *)
Lemma deleteOwnProfile_cascade_witness :
  one_profile_per_user Ex2.store ∧
  query_profile Ex.alice (deleteOwnProfile Ex.alice Ex2.store).1 = None ∧
  users (deleteOwnProfile Ex.alice Ex2.store).1 !! Ex.alice = None ∧
  filter (λ p, Post.user p = Ex.alice)
    (posts (deleteOwnProfile Ex.alice Ex2.store).1) = [].
Proof.
  assert (H : one_profile_per_user Ex2.store) by compute_done.
  split; [exact H|].
  destruct (deleteOwnProfile_cascade Ex2.store Ex.alice H)
    as (_ & Hposts & Hq & Husers & _).
  split; [exact Hq|]. split; [exact Husers|exact Hposts].
Defined.

(** X20 (a linked identifier on the complete router) at the 24-digit
    identifier of Alice. *)
Lemma getProfileByUser_found_witness :
  castObjectId (js "000000000000000000000001") = inr Ex.alice ∧
  query_profile Ex.alice Ex2.store = Some Ex.profile ∧
  getProfileByUser (js "000000000000000000000001") Ex2.store =
    (Ex2.store,
     res_json
       (JPopulated (Ex.profile, Some (User.mk (js "Alice") (js "a.png"))))).
Proof.
  split; [reflexivity|]. split; [reflexivity|].
  exact (getProfileByUser_found Ex2.store (js "000000000000000000000001")
           Ex.alice Ex.profile eq_refl eq_refl).
Defined.
